(** * OT scheduling assistant: a shallow embedding of [streamlit_app.py]

    The program is a sequential pipeline: read text (typed, or extracted
    from a PDF), send it to a hosted language model, clean and parse the
    reply as JSON, and insert every event of the reply into a remote
    calendar.  The embedding keeps the source's control flow.  What the
    source obtains from libraries and from the network (the model, the
    JSON parser, the PDF reader, the OAuth library, the calendar API) is
    read from an environment record, and every user-visible action and
    every outgoing call is appended to a log. *)

From Stdlib Require Import List Bool Arith NArith ZArith Lia String Ascii.
From Stdlib Require Import Floats.SpecFloat.
Import ListNotations.

Set Implicit Arguments.

(** ** Python strings

    A Python [str] is a sequence of Unicode code points; slicing, [strip]
    and [replace] all count code points, not bytes. *)

Module PyStr.

Definition char := N.
Definition str := list char.

(** [lit] reads an ASCII literal; [utf8] decodes a literal written in
    UTF-8, as the source file is. *)
Definition lit (s : string) : str :=
  map N_of_ascii (list_ascii_of_string s).

Definition cont (b : N) : N := N.land b 63.

Fixpoint utf8_bytes (bs : list N) : str :=
  match bs with
  | [] => []
  | b :: r =>
      if (b <? 128)%N then b :: utf8_bytes r
      else if (b <? 224)%N then
        match r with
        | b1 :: r1 => (N.land b 31 * 64 + cont b1)%N :: utf8_bytes r1
        | _ => []
        end
      else if (b <? 240)%N then
        match r with
        | b1 :: b2 :: r2 =>
            (N.land b 15 * 4096 + cont b1 * 64 + cont b2)%N :: utf8_bytes r2
        | _ => []
        end
      else
        match r with
        | b1 :: b2 :: b3 :: r3 =>
            (N.land b 7 * 262144 + cont b1 * 4096 + cont b2 * 64 + cont b3)%N
              :: utf8_bytes r3
        | _ => []
        end
  end.

Definition utf8 (s : string) : str := utf8_bytes (lit s).

(** [a == b] *)
Fixpoint eqb (a b : str) : bool :=
  match a, b with
  | [], [] => true
  | x :: a', y :: b' => (x =? y)%N && eqb a' b'
  | _, _ => false
  end.

(** [s.startswith(old)] *)
Fixpoint starts_with (old s : str) : bool :=
  match old, s with
  | [], _ => true
  | _ :: _, [] => false
  | a :: old', b :: s' => (a =? b)%N && starts_with old' s'
  end.

(** [old in s] on two strings: substring search. *)
Fixpoint occurs (old s : str) : bool :=
  starts_with old s ||
  match s with
  | [] => false
  | _ :: s' => occurs old s'
  end.

(** [s.replace(old, "")] for a non-empty [old]: every non-overlapping
    occurrence, found from left to right, is dropped.  [skip] counts the
    characters of the current occurrence still to be dropped. *)
Fixpoint remove_from (old : str) (skip : nat) (s : str) : str :=
  match s with
  | [] => []
  | c :: s' =>
      match skip with
      | S k => remove_from old k s'
      | O =>
          if starts_with old s
          then remove_from old (List.length old - 1) s'
          else c :: remove_from old 0 s'
      end
  end.

Definition remove (old s : str) : str := remove_from old 0 s.

(** The characters [str.strip()] removes: those for which
    [str.isspace] holds. *)
Definition is_space (c : char) : bool :=
  ((9 <=? c) && (c <=? 13) || (28 <=? c) && (c <=? 32)
   || (c =? 133) || (c =? 160) || (c =? 5760)
   || (8192 <=? c) && (c <=? 8202)
   || (c =? 8232) || (c =? 8233) || (c =? 8239) || (c =? 8287)
   || (c =? 12288))%N.

Fixpoint lstrip (s : str) : str :=
  match s with
  | [] => []
  | c :: s' => if is_space c then lstrip s' else s
  end.

Definition rstrip (s : str) : str := rev (lstrip (rev s)).

Definition strip (s : str) : str := rstrip (lstrip s).

(** [s[:n]] *)
Definition slice_to (n : nat) (s : str) : str := firstn n s.

End PyStr.

Import PyStr.

(** ** Python values

    What [json.loads] returns: [None], booleans, integers, floats (IEEE
    binary64), strings, lists and dictionaries with string keys.  A
    dictionary keeps its items in insertion order, each key once. *)

#[local] Set Warnings "-register-all".

Inductive pyval : Type :=
| PNone
| PBool (b : bool)
| PInt (z : Z)
| PFloat (f : spec_float)
| PStr (s : str)
| PList (l : list pyval)
| PDict (items : list (str * pyval)).

(** The operations of the source that can raise. *)
Inductive pyop := OpContains | OpGetItem | OpIter.

(** Exceptions, all of them subclasses of [Exception]: the ones the
    interpreter raises on the values above, and the ones a library call
    raises ([LibraryError], with what [str(e)] shows). *)
Inductive exn : Type :=
| KeyError (key : str)
| TypeError (op : pyop) (v : pyval)
| AttributeError (v : pyval) (attr : str)
| LibraryError (what : str).

Inductive result (A : Type) : Type :=
| Ok (a : A)
| Raise (e : exn).

Arguments Ok {A} a.
Arguments Raise {A} e.

Module Py.

(** [bool(v)] *)
Definition truthy (v : pyval) : bool :=
  match v with
  | PNone => false
  | PBool b => b
  | PInt z => negb (z =? 0)%Z
  | PFloat (S754_zero _) => false
  | PFloat _ => true
  | PStr s => negb (PyStr.eqb s [])
  | PList l => match l with [] => false | _ => true end
  | PDict items => match items with [] => false | _ => true end
  end.

(** [d.get(key)] on the items of a dictionary. *)
Fixpoint lookup (key : str) (items : list (str * pyval)) : option pyval :=
  match items with
  | [] => None
  | (k, v) :: rest => if PyStr.eqb k key then Some v else lookup key rest
  end.

(** [x == key] for a string [key]: only an equal string is equal. *)
Definition eq_str (key : str) (x : pyval) : bool :=
  match x with
  | PStr s => PyStr.eqb s key
  | _ => false
  end.

(** [key in v] for a string [key]. *)
Definition contains (key : str) (v : pyval) : result bool :=
  match v with
  | PDict items =>
      Ok (match lookup key items with Some _ => true | None => false end)
  | PList l => Ok (existsb (eq_str key) l)
  | PStr s => Ok (occurs key s)
  | _ => Raise (TypeError OpContains v)
  end.

(** [v[key]] for a string [key]. *)
Definition getitem (v : pyval) (key : str) : result pyval :=
  match v with
  | PDict items =>
      match lookup key items with
      | Some x => Ok x
      | None => Raise (KeyError key)
      end
  | _ => Raise (TypeError OpGetItem v)
  end.

(** [v.get(key, default)]: only a dictionary has the method. *)
Definition get (v : pyval) (key : str) (default : pyval) : result pyval :=
  match v with
  | PDict items =>
      Ok (match lookup key items with Some x => x | None => default end)
  | _ => Raise (AttributeError v (lit "get"))
  end.

(** What [for x in v] runs over: the elements of a list, the keys of a
    dictionary, the characters of a string. *)
Definition iter (v : pyval) : result (list pyval) :=
  match v with
  | PList l => Ok l
  | PDict items => Ok (map (fun kv => PStr (fst kv)) items)
  | PStr s => Ok (map (fun c => PStr [c]) s)
  | _ => Raise (TypeError OpIter v)
  end.

End Py.

(** ** Formatted messages

    An f-string is kept as its pieces: the literal text and the values
    interpolated into it. *)

Inductive piece : Type :=
| Text (s : str)
| ShowExn (e : exn)
| ShowVal (v : pyval)
| ShowNat (n : nat).

Definition fstring := list piece.

(** ** Effects

    What the user sees ([st.*]) and what leaves the process. *)

Inductive effect : Type :=
| Spinner (label : str)
| GenerateContent (model : str) (prompt : str)
| StError (m : fstring)
| StWarning (m : fstring)
| StToast (m : fstring)
| StSuccess (m : fstring)
| StBalloons
| Refresh
| Build (serviceName version : str)
| CalendarInsert (calendarId : str) (body : pyval).

Definition is_error (e : effect) : bool :=
  match e with StError _ => true | _ => false end.
Definition is_warning (e : effect) : bool :=
  match e with StWarning _ => true | _ => false end.
Definition is_toast (e : effect) : bool :=
  match e with StToast _ => true | _ => false end.
Definition is_success (e : effect) : bool :=
  match e with StSuccess _ => true | _ => false end.
Definition is_insert (e : effect) : bool :=
  match e with CalendarInsert _ _ => true | _ => false end.
Definition is_model_call (e : effect) : bool :=
  match e with GenerateContent _ _ => true | _ => false end.
Definition is_calendar_call (e : effect) : bool :=
  match e with
  | Refresh | Build _ _ | CalendarInsert _ _ => true
  | _ => false
  end.
(** A message left on the page: error, warning, toast or success. *)
Definition is_message (e : effect) : bool :=
  match e with
  | StError _ | StWarning _ | StToast _ | StSuccess _ => true
  | _ => false
  end.

Definition count (p : effect -> bool) (log : list effect) : nat :=
  List.length (filter p log).

(** ** The monad of the embedding: a log of effects, and exceptions. *)

Definition M (A : Type) : Type := list effect -> list effect * result A.

Definition ret {A} (a : A) : M A := fun log => (log, Ok a).

Definition bind {A B} (m : M A) (k : A -> M B) : M B :=
  fun log =>
    match m log with
    | (log', Ok a) => k a log'
    | (log', Raise e) => (log', Raise e)
    end.

Definition lift {A} (r : result A) : M A := fun log => (log, r).

Definition tell (e : effect) : M unit := fun log => (log ++ [e], Ok tt).

(** [try: m  except Exception as e: h e] *)
Definition try_except {A} (m : M A) (h : exn -> M A) : M A :=
  fun log =>
    match m log with
    | (log', Raise e) => h e log'
    | r => r
    end.

Declare Scope py_scope.
Delimit Scope py_scope with py.
Notation "x <- m ;; k" := (bind m (fun x => k))
  (at level 61, m at next level, right associativity) : py_scope.
Notation "m ;; k" := (bind m (fun _ => k))
  (at level 61, right associativity) : py_scope.
Open Scope py_scope.

(** A run starts from an empty log. *)
Definition run {A} (m : M A) : list effect * result A := m [].

(** [emits P m]: whatever the log so far, [m] only appends to it, and
    only effects that satisfy [P]. *)
Definition emits {A} (P : effect -> Prop) (m : M A) : Prop :=
  forall log, exists t, fst (m log) = log ++ t /\ Forall P t.

(** ** The environment

    Everything the source gets from outside: the clock, the hosted model,
    [json.loads], the token loaded from the secret store, the OAuth
    library and the calendar API. *)

(** What the source reads from a [Credentials] object. *)
Record token_state : Type := {
  valid : bool;
  expired : bool;
  refresh_token : option str
}.

Record Credentials : Type := {
  state : token_state;
  scopes : list str
}.

(** The handle [build] returns. *)
Record Service : Type := {
  serviceName : str;
  version : str;
  credentials : Credentials
}.

Record Env : Type := {
  (** [datetime.now().strftime("%Y-%m-%d %H:%M:%S")] *)
  now : str;
  (** [model.generate_content(prompt).text], for the model of that name *)
  generate_content : str -> str -> result str;
  json_loads : str -> result pyval;
  (** the token read from the secrets when the process starts *)
  TOKEN_DICT : pyval;
  (** what [Credentials.from_authorized_user_info] makes of the token *)
  authorized_user_info : pyval -> result token_state;
  (** [creds.refresh(Request())]: the refreshed state, or an exception *)
  refresh_request : token_state -> result token_state;
  (** [.execute()] of the n-th insert request of the invocation (from 0) *)
  execute_insert : nat -> str -> pyval -> result unit
}.

(** ** The source, function by function *)

Definition SCOPES : list str :=
  [lit "https://www.googleapis.com/auth/calendar"].

(** *** Text extraction *)

(** A page is what [page.extract_text()] gives: a string, [None], or an
    exception.  An uploaded file is what [pdfplumber.open] makes of it:
    its pages, or an exception. *)
Definition page := result (option str).
Definition pdf_file := result (list page).

Definition nl : str := [10%N].

Fixpoint extract_pages (pages : list page) (text : str) : result str :=
  match pages with
  | [] => Ok text
  | Raise e :: _ => Raise e
  | Ok extracted :: rest =>
      match extracted with
      | Some (c :: s) => extract_pages rest (text ++ (c :: s) ++ nl)
      | _ => extract_pages rest text
      end
  end.

Definition extract_text_from_pdf (file : pdf_file) : option str :=
  match file with
  | Raise _ => None
  | Ok pages =>
      match extract_pages pages [] with
      | Raise _ => None
      | Ok text => Some text
      end
  end.

(** *** The calendar client factory *)

Definition from_authorized_user_info (E : Env) (info : pyval)
    (scopes : list str) : result Credentials :=
  match authorized_user_info E info with
  | Ok st => Ok {| state := st; scopes := scopes |}
  | Raise e => Raise e
  end.

Definition build (name ver : str) (creds : Credentials) : M Service :=
  tell (Build name ver) ;;
  ret {| serviceName := name; version := ver; credentials := creds |}.

Definition has_refresh_token (c : Credentials) : bool :=
  match refresh_token (state c) with
  | Some (_ :: _) => true
  | _ => false
  end.

Definition msg_refresh_failed : fstring :=
  [Text (utf8 "❌ 憑證過期且無法自動更新，請聯絡管理員更新 Token。")].
Definition msg_no_credentials : fstring :=
  [Text (utf8 "❌ 找不到有效的憑證，請檢查 Secrets 設定。")].

(** [creds.refresh(Request())] changes the object in place. *)
Definition refresh (E : Env) (c : Credentials) : M Credentials :=
  tell Refresh ;;
  st <- lift (refresh_request E (state c)) ;;
  ret {| state := st; scopes := scopes c |}.

Definition get_calendar_service (E : Env) : M (option Service) :=
  creds <- (if Py.truthy (TOKEN_DICT E)
            then c <- lift (from_authorized_user_info E (TOKEN_DICT E) SCOPES) ;;
                 ret (Some c)
            else ret None) ;;
  match creds with
  | Some c =>
      if valid (state c) then
        s <- build (lit "calendar") (lit "v3") c ;; ret (Some s)
      else if expired (state c) && has_refresh_token c then
        r <- try_except (c' <- refresh E c ;; ret (Some c'))
               (fun _ => tell (StError msg_refresh_failed) ;; ret None) ;;
        match r with
        | Some c' => s <- build (lit "calendar") (lit "v3") c' ;; ret (Some s)
        | None => ret None
        end
      else tell (StError msg_no_credentials) ;; ret None
  | None => tell (StError msg_no_credentials) ;; ret None
  end.

(** *** The scheduling analyzer and the calendar writer *)

Definition dq : str := [34%N].
Definition indent : str := lit "        ".

(** The f-string of the prompt, line by line; [{{] and [}}] of the source
    stand for one brace each. *)
Definition prompt_head : str :=
  nl ++ indent ++ utf8 "現在時間：".

Definition prompt_rules : str :=
  nl ++ indent ++ utf8 "請分析內容，提取「行事曆活動」。"
  ++ nl ++ indent ++ utf8 "【規則】"
  ++ nl ++ indent
  ++ utf8 "1. 相對時間(明天、週五)請轉為 ISO 8601 日期 (YYYY-MM-DDTHH:MM:SS)。"
  ++ nl ++ indent ++ utf8 "2. 若無結束時間，預設為開始後 1 小時。"
  ++ nl ++ indent ++ utf8 "3. 回傳純 JSON。"
  ++ nl ++ indent
  ++ nl ++ indent ++ utf8 "【範例】"
  ++ nl ++ indent
  ++ lit "{ " ++ dq ++ lit "events" ++ dq ++ lit ": [ { "
  ++ dq ++ lit "summary" ++ dq ++ lit ": " ++ dq ++ utf8 "標題" ++ dq ++ lit ", "
  ++ dq ++ lit "start_time" ++ dq ++ lit ": "
  ++ dq ++ lit "2026-01-20T10:00:00" ++ dq ++ lit ", "
  ++ dq ++ lit "end_time" ++ dq ++ lit ": "
  ++ dq ++ lit "2026-01-20T11:00:00" ++ dq ++ lit " } ] }"
  ++ nl
  ++ nl ++ indent ++ utf8 "內容：".

Definition prompt_tail : str := nl ++ indent.

Definition build_prompt (now_ content : str) : str :=
  prompt_head ++ now_ ++ prompt_rules ++ slice_to 5000 content ++ prompt_tail.

Definition fence_json : str := lit "```json".
Definition fence : str := lit "```".

(** [response.text.replace("```json", "").replace("```", "").strip()] *)
Definition clean_reply (text : str) : str :=
  strip (remove fence (remove fence_json text)).

Definition model_name : str := lit "gemini-flash-latest".

Definition call_model (E : Env) (prompt : str) : M str :=
  tell (GenerateContent model_name prompt) ;;
  lift (generate_content E model_name prompt).

Definition rbind {A B} (r : result A) (k : A -> result B) : result B :=
  match r with
  | Ok a => k a
  | Raise e => Raise e
  end.

Definition placeholder_title : pyval := PStr (utf8 "新活動").

(** The dictionary literal of [body]. *)
Definition make_body (summary start end_time : pyval) : pyval :=
  PDict
    [ (lit "summary", summary);
      (lit "start", PDict [ (lit "dateTime", start);
                            (lit "timeZone", PStr (lit "Asia/Taipei")) ]);
      (lit "end", PDict [ (lit "dateTime", end_time);
                          (lit "timeZone", PStr (lit "Asia/Taipei")) ]) ].

(** The [body] of one event: the three values are read in the order of
    the source, the default of [end_time] before the call of [get]. *)
Definition event_body (event : pyval) : result pyval :=
  rbind (Py.get event (lit "summary") placeholder_title) (fun summary =>
  rbind (Py.getitem event (lit "start_time")) (fun start =>
  rbind (Py.getitem event (lit "start_time")) (fun default_end =>
  rbind (Py.get event (lit "end_time") default_end) (fun end_time =>
  Ok (make_body summary start end_time))))).

(** [service.events().insert(calendarId=..., body=...).execute()] *)
Definition calendar_insert (E : Env) (service : Service) (calendarId : str)
    (body : pyval) : M unit :=
  fun log =>
    (log ++ [CalendarInsert calendarId body],
     execute_insert E (count is_insert log) calendarId body).

Definition msg_created (title : pyval) : fstring :=
  [Text (utf8 "✅ 已建立："); ShowVal title].
Definition msg_create_failed (e : exn) : fstring :=
  [Text (utf8 "建立失敗: "); ShowExn e].
Definition msg_analysis_failed (e : exn) : fstring :=
  [Text (utf8 "AI 解析失敗: "); ShowExn e].
Definition msg_no_events : fstring :=
  [Text (utf8 "⚠️ AI 沒找到任何活動。")].
Definition msg_success (success_count : nat) : fstring :=
  [Text (utf8 "🎉 成功加入 "); ShowNat success_count;
   Text (utf8 " 個行程到日曆！")].

(** The body of the [try] of the loop, up to the toast. *)
Definition insert_event (E : Env) (service : Service) (event : pyval)
    : M unit :=
  body <- lift (event_body event) ;;
  calendar_insert E service (lit "primary") body ;;
  title <- lift (Py.getitem event (lit "summary")) ;;
  tell (StToast (msg_created title)).

(** The [for] loop, with [success_count] as it stands. *)
Fixpoint schedule_events (E : Env) (service : Service) (events : list pyval)
    (success_count : nat) : M nat :=
  match events with
  | [] => ret success_count
  | event :: rest =>
      n <- try_except
             (insert_event E service event ;; ret (S success_count))
             (fun e => tell (StError (msg_create_failed e)) ;;
                       ret success_count) ;;
      schedule_events E service rest n
  end.

(** [if success_count > 0: ...] after the loop. *)
Definition report_success (success_count : nat) : M unit :=
  if 0 <? success_count
  then tell (StSuccess (msg_success success_count)) ;; tell StBalloons
  else ret tt.

Definition spinner_label : str :=
  utf8 "🧠 AI 正在分析並聯絡 Google 日曆...".

(** [not data or "events" not in data] *)
Definition no_events (data : pyval) : M bool :=
  if negb (Py.truthy data) then ret true
  else c <- lift (Py.contains (lit "events") data) ;; ret (negb c).

(** What follows the [try] once the reply is parsed: the test for
    events, the client factory, the loop and the final report. *)
Definition write_events (E : Env) (data : pyval) : M unit :=
  missing <- no_events data ;;
  if missing then tell (StWarning msg_no_events)
  else
    service <- get_calendar_service E ;;
    match service with
    | None => ret tt
    | Some svc =>
        events <- lift (Py.getitem data (lit "events")) ;;
        items <- lift (Py.iter events) ;;
        success_count <- schedule_events E svc items 0 ;;
        report_success success_count
    end.

Definition analyze_and_schedule (E : Env) (content : str) : M unit :=
  tell (Spinner spinner_label) ;;
  let prompt := build_prompt (now E) content in
  parsed <- try_except
              (text <- call_model E prompt ;;
               let clean := clean_reply text in
               data <- lift (json_loads E clean) ;;
               ret (Some data))
              (fun e => tell (StError (msg_analysis_failed e)) ;; ret None) ;;
  match parsed with
  | None => ret tt
  | Some data => write_events E data
  end.

(** *** The two submit actions of the page *)

Definition msg_enter_content : fstring := [Text (utf8 "請輸入內容")].
Definition msg_cannot_read_pdf : fstring := [Text (utf8 "無法讀取 PDF 文字")].

(** The button of the first tab, with the text of the text area. *)
Definition submit_text (E : Env) (user_input : str) : M unit :=
  match user_input with
  | _ :: _ => analyze_and_schedule E user_input
  | [] => tell (StWarning msg_enter_content)
  end.

(** The button of the second tab, shown once a file is uploaded. *)
Definition submit_pdf (E : Env) (uploaded_file : pdf_file) : M unit :=
  match extract_text_from_pdf uploaded_file with
  | Some (c :: s) => analyze_and_schedule E (c :: s)
  | _ => tell (StError msg_cannot_read_pdf)
  end.


(** ** Fenced replies *)

Definition backtick : char := 96%N.

(** A reply in a code fence: the opening marker, with the language tag or
    without it, blank characters, the payload, blank characters, the
    closing marker. *)
Definition fenced (tagged : bool) (ws1 payload ws2 : str) : str :=
  (if tagged then fence_json else fence) ++ ws1 ++ payload ++ ws2 ++ fence.

(** A character a trimmed JSON text can begin or end with: not blank and
    not a backtick. *)
Definition edge (c : char) : bool :=
  negb (is_space c) && negb (c =? backtick)%N.

(** A payload the cleaning leaves as it is: it holds no fence marker, it
    begins and ends as a trimmed JSON text does, and behind a marker
    without tag it does not begin with [j], as no JSON text does. *)
Definition plain_payload (tagged : bool) (payload : str) : bool :=
  match payload with
  | [] => false
  | c :: _ =>
      edge c && edge (last payload c)
      && negb (occurs fence payload)
      && (tagged || negb (c =? 106)%N)
  end.

(** [quiet old a rest]: [old] occurs at no position of [a] in
    [a ++ rest]. *)
Fixpoint quiet (old a rest : str) : bool :=
  match a with
  | [] => true
  | _ :: a' => negb (starts_with old (a ++ rest)) && quiet old a' rest
  end.

(** ** Reading a run *)

(** The log of every run starts with the spinner and the call of the
    model. *)
Definition preamble (E : Env) (content : str) : list effect :=
  [Spinner spinner_label;
   GenerateContent model_name (build_prompt (now E) content)].

(** An event candidate as the data model has it: a record with a title
    and a start time. *)
Definition well_formed (event : pyval) : bool :=
  match event with
  | PDict items =>
      match Py.lookup (lit "summary") items,
            Py.lookup (lit "start_time") items with
      | Some _, Some _ => true
      | _, _ => false
      end
  | _ => false
  end.

(** The insert request of an event, when one is built. *)
Definition requests (events : list pyval) : list effect :=
  flat_map (fun event =>
              match event_body event with
              | Ok body => [CalendarInsert (lit "primary") body]
              | Raise _ => []
              end) events.

(** How the insertions of well-formed events end, the first of them
    being the k-th insertion of the invocation. *)
Fixpoint outcomes (E : Env) (k : nat) (events : list pyval)
    : list (result unit) :=
  match events with
  | [] => []
  | event :: rest =>
      match event_body event with
      | Ok body => execute_insert E k (lit "primary") body
      | Raise e => Raise e
      end :: outcomes E (S k) rest
  end.

Definition succeeded (r : result unit) : bool :=
  match r with
  | Ok _ => true
  | Raise _ => false
  end.

Definition successes (rs : list (result unit)) : nat :=
  List.length (filter succeeded rs).

Definition failures (rs : list (result unit)) : nat :=
  List.length (filter (fun r => negb (succeeded r)) rs).

(** ** Reading a document *)

(** A page gives text when [extract_text] returns a non-empty string; a
    document yields text when one of its pages does. *)
Definition page_has_text (p : page) : bool :=
  match p with
  | Ok (Some (_ :: _)) => true
  | _ => false
  end.

Definition has_text (file : pdf_file) : bool :=
  match file with
  | Ok pages => existsb page_has_text pages
  | Raise _ => false
  end.

(** The document cannot be opened, or one of its pages cannot be parsed. *)
Definition page_fails (p : page) : bool :=
  match p with
  | Raise _ => true
  | Ok _ => false
  end.

Definition unreadable (file : pdf_file) : bool :=
  match file with
  | Ok pages => existsb page_fails pages
  | Raise _ => true
  end.

(** ** Reading a service handle *)

(** The handle [build('calendar', 'v3', credentials=c)] returns, and the
    credentials made from a token state with the scopes of the source. *)
Definition calendar_service (c : Credentials) : Service :=
  {| serviceName := lit "calendar"; version := lit "v3"; credentials := c |}.

Definition with_scopes (st : token_state) : Credentials :=
  {| state := st; scopes := SCOPES |}.

(** ** Reading a request *)

(** [v[k1][k2]...] on nested dictionaries, [None] when a key is absent. *)
Fixpoint path (keys : list str) (v : pyval) : option pyval :=
  match keys with
  | [] => Some v
  | k :: ks =>
      match v with
      | PDict items =>
          match Py.lookup k items with
          | Some x => path ks x
          | None => None
          end
      | _ => None
      end
  end.

(** What [event.get] gives for the title and for the end time. *)
Definition summary_of (items : list (str * pyval)) : pyval :=
  match Py.lookup (lit "summary") items with
  | Some v => v
  | None => placeholder_title
  end.

Definition end_of (items : list (str * pyval)) (start : pyval) : pyval :=
  match Py.lookup (lit "end_time") items with
  | Some v => v
  | None => start
  end.

(** The end time the writer submits for an event, when it builds a
    request for it. *)
Definition submitted_end (event : pyval) : option pyval :=
  match event_body event with
  | Ok body => path [lit "end"; lit "dateTime"] body
  | Raise _ => None
  end.

(** ** The specification's end-time default

    Written from the words of the specification, for comparison with the
    code: the timestamp one hour after [YYYY-MM-DDTHH:MM:SS]. *)

Module IsoTime.

Definition digit (c : char) : option N :=
  if ((48 <=? c) && (c <=? 57))%N then Some (c - 48)%N else None.

Fixpoint number (acc : N) (s : str) : option N :=
  match s with
  | [] => Some acc
  | c :: s' =>
      match digit c with
      | Some d => number (acc * 10 + d)%N s'
      | None => None
      end
  end.

Record stamp : Type := {
  year : N; month : N; day : N; hour : N; minute : N; second : N
}.

(** The fields sit at fixed columns, separated by [-], [T] and [:]. *)
Definition parse (s : str) : option stamp :=
  match s with
  | [y1; y2; y3; y4; 45; m1; m2; 45; d1; d2; 84; h1; h2; 58; n1; n2; 58; s1; s2]%N =>
      match number 0 [y1; y2; y3; y4], number 0 [m1; m2], number 0 [d1; d2],
            number 0 [h1; h2], number 0 [n1; n2], number 0 [s1; s2] with
      | Some y, Some m, Some d, Some h, Some n, Some sec =>
          Some {| year := y; month := m; day := d;
                  hour := h; minute := n; second := sec |}
      | _, _, _, _, _, _ => None
      end
  | _ => None
  end.

Definition leap (y : N) : bool :=
  ((y mod 4 =? 0) && negb (y mod 100 =? 0) || (y mod 400 =? 0))%N.

Definition days_in_month (y m : N) : N :=
  if (m =? 2)%N then (if leap y then 29 else 28)%N
  else if ((m =? 4) || (m =? 6) || (m =? 9) || (m =? 11))%N then 30%N
  else 31%N.

Definition next_day (t : stamp) : stamp :=
  if (day t <? days_in_month (year t) (month t))%N then
    {| year := year t; month := month t; day := day t + 1;
       hour := 0; minute := minute t; second := second t |}
  else if (month t <? 12)%N then
    {| year := year t; month := month t + 1; day := 1;
       hour := 0; minute := minute t; second := second t |}
  else
    {| year := year t + 1; month := 1; day := 1;
       hour := 0; minute := minute t; second := second t |}.

Definition add_hour (t : stamp) : stamp :=
  if (hour t <? 23)%N then
    {| year := year t; month := month t; day := day t;
       hour := hour t + 1; minute := minute t; second := second t |}
  else next_day t.

Definition two (n : N) : str := [48 + n / 10; 48 + n mod 10]%N.
Definition four (n : N) : str :=
  [48 + n / 1000; 48 + (n / 100) mod 10; 48 + (n / 10) mod 10; 48 + n mod 10]%N.

Definition show (t : stamp) : str :=
  four (year t) ++ [45%N] ++ two (month t) ++ [45%N] ++ two (day t)
  ++ [84%N] ++ two (hour t) ++ [58%N] ++ two (minute t)
  ++ [58%N] ++ two (second t).

Definition plus_one_hour (s : str) : option str :=
  match parse s with
  | Some t => Some (show (add_hour t))
  | None => None
  end.

End IsoTime.

(** The claim of the specification: the end time submitted for an event
    without [end_time] is its start time plus one hour. *)
Definition end_defaults_to_start_plus_one_hour (event : pyval) : Prop :=
  forall start,
    path [lit "start_time"] event = Some (PStr start) ->
    path [lit "end_time"] event = None ->
    exists later,
      IsoTime.plus_one_hour start = Some later
      /\ submitted_end event = Some (PStr later).

(** ** Sample inputs *)

Module Sample.

(** The event of the prompt's own example. *)
Definition titled : pyval :=
  PDict [ (lit "summary", PStr (utf8 "標題"));
          (lit "start_time", PStr (lit "2026-01-20T10:00:00"));
          (lit "end_time", PStr (lit "2026-01-20T11:00:00")) ].

(** The same event without an end time. *)
Definition open_ended : pyval :=
  PDict [ (lit "summary", PStr (utf8 "標題"));
          (lit "start_time", PStr (lit "2026-01-20T10:00:00")) ].

(** An event with a start time only. *)
Definition untitled_items : list (str * pyval) :=
  [ (lit "start_time", PStr (lit "2026-01-20T10:00:00")) ].
Definition untitled : pyval := PDict untitled_items.

Definition fresh_token : token_state :=
  {| valid := true; expired := false; refresh_token := Some (lit "r") |}.
Definition stale_token : token_state :=
  {| valid := false; expired := true; refresh_token := Some (lit "r") |}.

Definition token_dict : pyval :=
  PDict [ (lit "token", PStr (lit "t"));
          (lit "refresh_token", PStr (lit "r")) ].

Definition service : Service :=
  {| serviceName := lit "calendar"; version := lit "v3";
     credentials := {| state := fresh_token; scopes := SCOPES |} |}.

(** An environment that plays a script: the model answers [reply], the
    parser knows the one text [clean] and reads it as [data], the token
    is in the state [token], a refresh gives [refreshed], and the n-th
    insertion ends as the n-th of [outcomes] (an insertion beyond the
    script succeeds). *)
Definition env (reply : result str) (clean : str) (data : pyval)
    (token : token_state) (refreshed : result token_state)
    (outcomes : list (result unit)) : Env :=
  {| now := lit "2026-01-19 09:00:00";
     generate_content := fun _ _ => reply;
     json_loads := fun s =>
       if PyStr.eqb s clean then Ok data
       else Raise (LibraryError
                     (lit "Expecting value: line 1 column 1 (char 0)"));
     TOKEN_DICT := token_dict;
     authorized_user_info := fun _ => Ok token;
     refresh_request := fun _ => refreshed;
     execute_insert := fun n _ _ => nth n outcomes (Ok tt) |}.

(** A scan of two pages: no text on either, [None] for the first and an
    empty string for the second. *)
Definition scanned : pdf_file := Ok [Ok None; Ok (Some [])].

(** Nothing goes wrong: the model answers [null], every insertion
    succeeds. *)
Definition quiet : Env :=
  env (Ok (lit "null")) (lit "null") PNone fresh_token (Ok fresh_token) [].

(** The token is expired, and the refresh is refused. *)
Definition refused : exn := LibraryError (lit "invalid_grant").
Definition stale : Env :=
  env (Ok (lit "null")) (lit "null") PNone stale_token (Raise refused) [].

Definition calendar_down : exn := LibraryError (lit "HttpError 503").

(** The calendar refuses the second insertion of the invocation. *)
Definition flaky : Env :=
  env (Ok (lit "null")) (lit "null") PNone fresh_token (Ok fresh_token)
    [Ok tt; Raise calendar_down; Ok tt].

Definition three : list pyval := [titled; open_ended; titled].

(** The model finds nothing: a fenced object with an empty list. *)
Definition nothing_found_payload : str :=
  lit "{" ++ dq ++ lit "events" ++ dq ++ lit ": []}".
Definition nothing_found_reply : str :=
  fence_json ++ nl ++ nothing_found_payload ++ nl ++ fence.
Definition nothing_found : Env :=
  env (Ok nothing_found_reply) nothing_found_payload
    (PDict [ (lit "events", PList []) ])
    fresh_token (Ok fresh_token) [].

(** The model finds the three events of [three], and the calendar
    refuses the second insertion. *)
Definition field (key value : str) : str :=
  dq ++ key ++ dq ++ lit ": " ++ dq ++ value ++ dq.
Definition titled_text : str :=
  lit "{" ++ field (lit "summary") (utf8 "標題")
  ++ lit ", " ++ field (lit "start_time") (lit "2026-01-20T10:00:00")
  ++ lit ", " ++ field (lit "end_time") (lit "2026-01-20T11:00:00")
  ++ lit "}".
Definition open_ended_text : str :=
  lit "{" ++ field (lit "summary") (utf8 "標題")
  ++ lit ", " ++ field (lit "start_time") (lit "2026-01-20T10:00:00")
  ++ lit "}".
Definition three_found_payload : str :=
  lit "{" ++ dq ++ lit "events" ++ dq ++ lit ": [" ++ titled_text
  ++ lit ", " ++ open_ended_text ++ lit ", " ++ titled_text ++ lit "]}".
Definition three_found : Env :=
  env (Ok (fence_json ++ nl ++ three_found_payload ++ nl ++ fence))
    three_found_payload (PDict [ (lit "events", PList three) ])
    fresh_token (Ok fresh_token)
    [Ok tt; Raise calendar_down; Ok tt].

(** The model answers with a number. *)
Definition number_reply : Env :=
  env (Ok (lit "5")) (lit "5") (PInt 5) fresh_token (Ok fresh_token) [].

(** The model answers with an object whose events are a number. *)
Definition numbered_events_text : str :=
  lit "{" ++ dq ++ lit "events" ++ dq ++ lit ": 5}".
Definition numbered_events : Env :=
  env (Ok numbered_events_text) numbered_events_text
    (PDict [ (lit "events", PInt 5) ]) fresh_token (Ok fresh_token) [].

(** The model puts a fence marker into a title. *)
Definition marker_in_title_payload : str :=
  lit "{" ++ dq ++ lit "events" ++ dq ++ lit ": [{" ++ dq ++ lit "summary"
  ++ dq ++ lit ": " ++ dq ++ lit "```" ++ dq ++ lit ", " ++ dq
  ++ lit "start_time" ++ dq ++ lit ": " ++ dq ++ lit "2026-01-20T10:00:00"
  ++ dq ++ lit "}]}".
Definition marker_in_title_cleaned : str :=
  lit "{" ++ dq ++ lit "events" ++ dq ++ lit ": [{" ++ dq ++ lit "summary"
  ++ dq ++ lit ": " ++ dq ++ dq ++ lit ", " ++ dq
  ++ lit "start_time" ++ dq ++ lit ": " ++ dq ++ lit "2026-01-20T10:00:00"
  ++ dq ++ lit "}]}".

(** The model answers with a list instead of an object. *)
Definition list_reply : Env :=
  env (Ok (lit "[1]")) (lit "[1]") (PList [PInt 1])
    fresh_token (Ok fresh_token) [].

(** The model answers in prose. *)
Definition prose_reply : Env :=
  env (Ok (lit "No events found.")) (lit "[1]") (PList [PInt 1])
    fresh_token (Ok fresh_token) [].

(** The model answers with an object that has no events key. *)
Definition other_key_text : str :=
  lit "{" ++ dq ++ lit "note" ++ dq ++ lit ": null}".
Definition other_key_reply : Env :=
  env (Ok other_key_text) other_key_text (PDict [ (lit "note", PNone) ])
    fresh_token (Ok fresh_token) [].

End Sample.

(** ** The start of the script *)

(** [st.secrets]: the secret store, a mapping from names to values. *)
Definition secrets := list (str * pyval).

(** [st.secrets[name]] *)
Definition secret (store : secrets) (name : str) : result pyval :=
  match Py.lookup name store with
  | Some v => Ok v
  | None => Raise (KeyError name)
  end.

(** [json.loads(v)]: only a string is parsed. *)
Definition loads (E : Env) (v : pyval) : result pyval :=
  match v with
  | PStr s => json_loads E s
  | _ => Raise (LibraryError
                  (lit "the JSON object must be str, bytes or bytearray"))
  end.

(** The three globals of the script. *)
Record Config : Type := {
  API_KEY : pyval;
  token_dict : pyval;
  CLIENT_CONFIG : pyval
}.

Definition msg_no_secrets : fstring :=
  [Text (utf8 "❌ 尚未設定 Secrets 金鑰！請至 Streamlit 後台設定。")].

(** The [try] at the top of the script; [None] stands for [st.stop()],
    after which nothing of the script runs. *)
Definition load_secrets (E : Env) (store : secrets) : M (option Config) :=
  try_except
    (key <- lift (secret store (lit "GEMINI_API_KEY")) ;;
     token_text <- lift (secret store (lit "GOOGLE_TOKEN_JSON")) ;;
     token <- lift (loads E token_text) ;;
     client_text <- lift (secret store (lit "GOOGLE_CLIENT_JSON")) ;;
     client <- lift (loads E client_text) ;;
     ret (Some {| API_KEY := key; token_dict := token;
                  CLIENT_CONFIG := client |}))
    (fun _ => tell (StError msg_no_secrets) ;; ret None).

(** The environment of the handlers once the token is loaded. *)
Definition with_token (E : Env) (token : pyval) : Env :=
  {| now := now E;
     generate_content := generate_content E;
     json_loads := json_loads E;
     TOKEN_DICT := token;
     authorized_user_info := authorized_user_info E;
     refresh_request := refresh_request E;
     execute_insert := execute_insert E |}.

(** What the page asks of the user in one run of the script: the text of
    the text area and whether its button was pressed, the uploaded file,
    if any, and whether its button was pressed. *)
Record Page : Type := {
  user_input : str;
  txt_btn : bool;
  uploaded_file : option pdf_file;
  pdf_btn : bool
}.

(** One run of the script, from the secrets to the two tabs.  The calls
    that only draw the page (title, hint, widgets) leave nothing in the
    log. *)
Definition script (E : Env) (store : secrets) (page : Page) : M unit :=
  config <- load_secrets E store ;;
  match config with
  | None => ret tt
  | Some c =>
      let E' := with_token E (token_dict c) in
      (if txt_btn page then submit_text E' (user_input page) else ret tt) ;;
      match uploaded_file page with
      | Some file => if pdf_btn page then submit_pdf E' file else ret tt
      | None => ret tt
      end
  end.

(** ** Reading an extraction *)

(** What a page adds to the text: its own text and a newline, or
    nothing. *)
Definition page_text (p : page) : str :=
  match p with
  | Ok (Some (c :: s)) => (c :: s) ++ nl
  | _ => []
  end.

(** ** Reading the loop *)

(** An event for which no request can be built: not a dictionary, or a
    dictionary without [start_time]. *)
Definition unusable (event : pyval) : bool :=
  match event_body event with
  | Ok _ => false
  | Raise _ => true
  end.

(** Nothing but what the loop can emit. *)
Definition loop_effect (e : effect) : bool :=
  is_insert e || is_toast e || is_error e.

Definition is_refresh (e : effect) : bool :=
  match e with Refresh => true | _ => false end.
Definition is_build (e : effect) : bool :=
  match e with Build _ _ => true | _ => false end.

(** Two more documents: text on the first and on the last of three pages,
    and the same with a page that cannot be parsed at the end. *)
Module Sample2.

Definition memo : list page :=
  [Ok (Some (lit "Mon 9:00")); Ok None; Ok (Some (lit "Fri 14:00"))].

Definition broken_page : exn := LibraryError (lit "PDFSyntaxError").

Definition damaged : pdf_file := Ok (memo ++ [Raise broken_page]).

End Sample2.

(** ** Reading a cleaned reply *)

(** A text without a blank character at either end. *)
Definition trimmed (s : str) : bool :=
  match s with
  | [] => true
  | c :: _ => negb (is_space c) && negb (is_space (last s c))
  end.

(** ** Reading the end of a run *)

Definition is_balloons (e : effect) : bool :=
  match e with StBalloons => true | _ => false end.

(** What the final report adds to the log for a count. *)
Definition report (success_count : nat) : list effect :=
  if 0 <? success_count
  then [StSuccess (msg_success success_count); StBalloons]
  else [].

(** A value on which the test for events is decided: it is false, or it
    is a container in which the key is looked for. *)
Definition passes_events_test (data : pyval) : Prop :=
  Py.truthy data = true /\ Py.contains (lit "events") data = Ok true.

(** A value that is neither a string nor a list nor a dictionary. *)
Definition scalar (v : pyval) : bool :=
  match v with
  | PNone | PBool _ | PInt _ | PFloat _ => true
  | _ => false
  end.

(** The rest of [write_events] once the test for events is passed. *)
Definition after_events_test (E : Env) (data : pyval) : M unit :=
  service <- get_calendar_service E ;;
  match service with
  | None => ret tt
  | Some svc =>
      events <- lift (Py.getitem data (lit "events")) ;;
      items <- lift (Py.iter events) ;;
      success_count <- schedule_events E svc items 0 ;;
      report_success success_count
  end.


(** Two more replies: the events as a string, and an empty list with a
    token that cannot be refreshed. *)
Module Sample3.

Definition string_events_text : str :=
  lit "{" ++ dq ++ lit "events" ++ dq ++ lit ": " ++ dq ++ lit "ab" ++ dq
  ++ lit "}".
Definition string_events : Env :=
  Sample.env (Ok string_events_text) string_events_text
    (PDict [ (lit "events", PStr (lit "ab")) ])
    Sample.fresh_token (Ok Sample.fresh_token) [].

Definition locked_out : Env :=
  Sample.env (Ok Sample.nothing_found_reply) Sample.nothing_found_payload
    (PDict [ (lit "events", PList []) ])
    Sample.stale_token (Raise Sample.refused) [].

(** The three events of [Sample.three], and a calendar that takes them
    all. *)
Definition all_taken : Env :=
  Sample.env
    (Ok (fence_json ++ nl ++ Sample.three_found_payload ++ nl ++ fence))
    Sample.three_found_payload (PDict [ (lit "events", PList Sample.three) ])
    Sample.fresh_token (Ok Sample.fresh_token) [].

End Sample3.

(** A secret store with the three secrets, for the parser of
    [Sample.quiet], which reads [null]. *)
Module Sample4.

Definition store : secrets :=
  [ (lit "GEMINI_API_KEY", PStr (lit "key"));
    (lit "GOOGLE_TOKEN_JSON", PStr (lit "null"));
    (lit "GOOGLE_CLIENT_JSON", PStr (lit "null")) ].

(** The same without the client configuration. *)
Definition short_store : secrets :=
  [ (lit "GEMINI_API_KEY", PStr (lit "key"));
    (lit "GOOGLE_TOKEN_JSON", PStr (lit "null")) ].

(** Both buttons pressed, a text in the text area and a file uploaded. *)
Definition busy_page : Page :=
  {| user_input := lit "lunch"; txt_btn := true;
     uploaded_file := Some (Ok Sample2.memo); pdf_btn := true |}.

End Sample4.

(** A missing secret, a blob that is no string, a blob that does not
    parse: the five steps of the [try] that can fail. *)
Definition secrets_fail (E : Env) (store : secrets) : Prop :=
  (exists e, secret store (lit "GEMINI_API_KEY") = Raise e)
  \/ (exists e,
        rbind (secret store (lit "GOOGLE_TOKEN_JSON")) (loads E) = Raise e)
  \/ (exists e,
        rbind (secret store (lit "GOOGLE_CLIENT_JSON")) (loads E) = Raise e).

(** ** Reasoning about logs *)

Section Emits.

Variable P : effect -> Prop.

Lemma emits_ret A (a : A) : emits P (ret a).
Proof. intros log. exists []. simpl. now rewrite app_nil_r. Qed.

Lemma emits_lift A (r : result A) : emits P (lift r).
Proof. intros log. exists []. simpl. now rewrite app_nil_r. Qed.

Lemma emits_tell e : P e -> emits P (tell e).
Proof. intros He log. exists [e]. simpl. auto. Qed.

Lemma emits_bind A B (m : M A) (k : A -> M B) :
  emits P m -> (forall a, emits P (k a)) -> emits P (bind m k).
Proof.
  intros Hm Hk log. unfold bind.
  destruct (Hm log) as [t [Et Ft]].
  destruct (m log) as [log' [a | e]]; simpl in Et; subst log'.
  - destruct (Hk a (log ++ t)) as [t' [Et' Ft']].
    exists (t ++ t'). rewrite Et', app_assoc. split; [reflexivity |].
    apply Forall_app; auto.
  - exists t. auto.
Qed.

Lemma emits_try_except A (m : M A) (h : exn -> M A) :
  emits P m -> (forall e, emits P (h e)) -> emits P (try_except m h).
Proof.
  intros Hm Hh log. unfold try_except.
  destruct (Hm log) as [t [Et Ft]].
  destruct (m log) as [log' [a | e]]; simpl in Et; subst log'.
  - exists t. auto.
  - destruct (Hh e (log ++ t)) as [t' [Et' Ft']].
    exists (t ++ t'). rewrite Et', app_assoc. split; [reflexivity |].
    apply Forall_app; auto.
Qed.

Lemma emits_if A (b : bool) (m1 m2 : M A) :
  emits P m1 -> emits P m2 -> emits P (if b then m1 else m2).
Proof. destruct b; auto. Qed.

End Emits.

Create HintDb emits.

#[local] Hint Resolve emits_ret emits_lift emits_tell emits_bind
  emits_try_except emits_if : emits.

Lemma emits_build P name ver c :
  P (Build name ver) -> emits P (build name ver c).
Proof. intros H. unfold build. auto with emits. Qed.

Lemma emits_refresh P E c : P Refresh -> emits P (refresh E c).
Proof. intros H. unfold refresh. auto 6 with emits. Qed.

Lemma emits_get_calendar_service (P : effect -> Prop) E :
  P Refresh -> (forall n v, P (Build n v)) -> (forall m, P (StError m)) ->
  emits P (get_calendar_service E).
Proof.
  intros HR HB HE. unfold get_calendar_service.
  apply emits_bind.
  - apply emits_if; auto with emits.
  - intros [c |]; [| auto with emits].
    repeat apply emits_if; auto using emits_build with emits.
    apply emits_bind.
    + apply emits_try_except; auto using emits_refresh with emits.
    + intros [c' |]; auto using emits_build with emits.
Qed.

Lemma emits_calendar_insert (P : effect -> Prop) E svc cid body :
  P (CalendarInsert cid body) -> emits P (calendar_insert E svc cid body).
Proof. intros H log. exists [CalendarInsert cid body]. simpl. auto. Qed.

Lemma emits_insert_event (P : effect -> Prop) E svc event :
  (forall c b, P (CalendarInsert c b)) -> (forall m, P (StToast m)) ->
  emits P (insert_event E svc event).
Proof.
  intros HI HT. unfold insert_event.
  auto 8 using emits_calendar_insert with emits.
Qed.

Lemma emits_schedule_events (P : effect -> Prop) E svc events :
  (forall c b, P (CalendarInsert c b)) -> (forall m, P (StToast m)) ->
  (forall m, P (StError m)) ->
  forall n, emits P (schedule_events E svc events n).
Proof.
  intros HI HT HE. induction events as [| event rest IH]; intros n; simpl.
  - auto with emits.
  - apply emits_bind; [| auto].
    apply emits_try_except; auto 6 using emits_insert_event with emits.
Qed.

Lemma emits_report_success (P : effect -> Prop) n :
  (forall m, P (StSuccess m)) -> P StBalloons -> emits P (report_success n).
Proof. intros HS HB. unfold report_success. auto 6 with emits. Qed.

Lemma emits_no_events P data : emits P (no_events data).
Proof. unfold no_events. auto 6 with emits. Qed.

(** Everything [analyze_and_schedule] does after the spinner and the one
    call of the model. *)
Lemma analyze_and_schedule_log (P : effect -> Prop) E content :
  (forall e, is_model_call e = false -> e <> Spinner spinner_label -> P e) ->
  exists t,
    fst (run (analyze_and_schedule E content))
    = Spinner spinner_label
        :: GenerateContent model_name (build_prompt (now E) content) :: t
    /\ Forall P t.
Proof.
  intros HP.
  assert (HP' : forall e, is_model_call e = false ->
                          (forall l, e <> Spinner l) -> P e).
  { intros e H1 H2. apply HP; auto. }
  set (rest := fun parsed : option pyval =>
    match parsed with
    | None => ret tt
    | Some data => write_events E data
    end).
  assert (Hrest : forall parsed, emits P (rest parsed)).
  { intros [data |]; unfold rest, write_events; [| auto with emits].
    apply emits_bind; [apply emits_no_events |].
    intros missing. apply emits_if.
    - apply emits_tell. apply HP'; [reflexivity | discriminate].
    - apply emits_bind.
      + apply emits_get_calendar_service; intros; apply HP';
          solve [reflexivity | discriminate].
      + intros [svc |]; [| auto with emits].
        apply emits_bind; [auto with emits |]. intros events.
        apply emits_bind; [auto with emits |]. intros items.
        apply emits_bind.
        * apply emits_schedule_events; intros; apply HP';
            solve [reflexivity | discriminate].
        * intros n. apply emits_report_success; intros; apply HP';
            solve [reflexivity | discriminate]. }
  set (handler := fun e : exn =>
    tell (StError (msg_analysis_failed e)) ;; ret (@None pyval)).
  assert (Hh : forall e, emits P (handler e)).
  { intros e. unfold handler. apply emits_bind; [| auto with emits].
    apply emits_tell. apply HP'; [reflexivity | discriminate]. }
  unfold run, analyze_and_schedule.
  fold rest. fold handler.
  unfold bind at 1. simpl.
  unfold bind at 1, try_except, bind at 1, call_model, bind at 1. simpl.
  unfold lift.
  destruct (generate_content E model_name (build_prompt (now E) content))
    as [text | e].
  - unfold bind at 1. simpl.
    destruct (json_loads E (clean_reply text)) as [data | e]; simpl.
    + destruct (Hrest (Some data)
        [Spinner spinner_label;
         GenerateContent model_name (build_prompt (now E) content)])
        as [t [Et Ft]].
      exists t. auto.
    + pose proof (emits_bind rest (Hh e) Hrest) as Hb.
      destruct (Hb [Spinner spinner_label;
         GenerateContent model_name (build_prompt (now E) content)])
        as [t [Et Ft]].
      exists t. split; [| exact Ft].
      exact Et.
  - pose proof (emits_bind rest (Hh e) Hrest) as Hb.
    destruct (Hb [Spinner spinner_label;
       GenerateContent model_name (build_prompt (now E) content)])
      as [t [Et Ft]].
    exists t. split; [| exact Ft].
    exact Et.
Qed.

(** ** The prompt *)

Lemma slice_to_prefix n (s : str) : exists rest, s = slice_to n s ++ rest.
Proof. exists (skipn n s). unfold slice_to. now rewrite firstn_skipn. Qed.

(** C8. For every input text, the one prompt sent to the language model
    embeds [content[:5000]]: a prefix of the text, of at most 5000
    characters, between two pieces that do not depend on the text.  Two
    texts with the same first 5000 characters give the same prompt, so
    nothing beyond the limit reaches the model, and no other call of the
    model is made in the invocation. *)
Theorem prompt_embeds_at_most_5000_characters (E : Env) (content : str) :
  let embedded := slice_to 5000 content in
  let prompt := build_prompt (now E) content in
  (exists t,
      fst (run (analyze_and_schedule E content))
      = Spinner spinner_label :: GenerateContent model_name prompt :: t
      /\ Forall (fun e => is_model_call e = false) t)
  /\ prompt = (prompt_head ++ now E ++ prompt_rules) ++ embedded ++ prompt_tail
  /\ List.length embedded <= 5000
  /\ (exists rest, content = embedded ++ rest)
  /\ (forall content',
         slice_to 5000 content' = embedded ->
         build_prompt (now E) content' = prompt).
Proof.
  intros embedded prompt. repeat split.
  - apply analyze_and_schedule_log. auto.
  - unfold prompt, build_prompt. now rewrite <- !app_assoc.
  - unfold embedded, slice_to. apply firstn_le_length.
  - apply slice_to_prefix.
  - intros content' H. unfold prompt, build_prompt. now rewrite H.
Qed.

(** ** Strings and dictionaries *)

Lemma eqb_eq (a b : str) : PyStr.eqb a b = true <-> a = b.
Proof.
  revert b. induction a as [| x a IH]; intros [| y b]; simpl;
    try (split; [discriminate | discriminate]); [tauto |].
  rewrite andb_true_iff, N.eqb_eq, IH.
  split; [intros [-> ->]; reflexivity | intros H; inversion H; auto].
Qed.

Lemma eqb_refl (a : str) : PyStr.eqb a a = true.
Proof. now apply eqb_eq. Qed.

(** ** One event *)

Lemma event_body_dict items start :
  Py.lookup (lit "start_time") items = Some start ->
  event_body (PDict items)
  = Ok (make_body (summary_of items) start (end_of items start)).
Proof.
  intros H. unfold event_body, Py.get, Py.getitem, rbind.
  now rewrite H.
Qed.

(** A request is built only for a dictionary that has [start_time]. *)
Lemma event_body_ok event body :
  event_body event = Ok body ->
  exists items start,
    event = PDict items
    /\ Py.lookup (lit "start_time") items = Some start
    /\ body = make_body (summary_of items) start (end_of items start).
Proof.
  intros H. destruct event as [| b | z | f | s | l | items];
    try discriminate H.
  destruct (Py.lookup (lit "start_time") items) as [start |] eqn:Hs.
  - rewrite (event_body_dict _ Hs) in H. inversion H.
    exists items, start. auto.
  - unfold event_body, Py.get, Py.getitem, rbind in H.
    rewrite Hs in H. discriminate H.
Qed.

Lemma insert_event_built E svc event body log :
  event_body event = Ok body ->
  exists t,
    fst (insert_event E svc event log)
    = log ++ CalendarInsert (lit "primary") body :: t
    /\ Forall (fun e => is_insert e = false) t.
Proof.
  intros H. unfold insert_event, bind, lift, calendar_insert, tell.
  rewrite H.
  destruct (execute_insert E (count is_insert log) (lit "primary") body)
    as [[] | e].
  - destruct (Py.getitem event (lit "summary")) as [title | e]; simpl.
    + exists [StToast (msg_created title)].
      rewrite <- app_assoc. simpl. auto.
    + exists []. auto.
  - exists []. auto.
Qed.

(** C9. For every event the writer builds a request for (a dictionary
    with [start_time]), the request goes to the calendar [primary], its
    summary is the event's, or the placeholder title when the event has
    none, and its start and its end both carry the time zone
    [Asia/Taipei]. *)
Theorem insert_request_shape E svc items start log :
  Py.lookup (lit "start_time") items = Some start ->
  exists body,
    event_body (PDict items) = Ok body
    /\ (exists t,
          fst (insert_event E svc (PDict items) log)
          = log ++ CalendarInsert (lit "primary") body :: t
          /\ Forall (fun e => is_insert e = false) t)
    /\ path [lit "summary"] body = Some (summary_of items)
    /\ (Py.lookup (lit "summary") items = None ->
        path [lit "summary"] body = Some placeholder_title)
    /\ path [lit "start"; lit "dateTime"] body = Some start
    /\ path [lit "start"; lit "timeZone"] body = Some (PStr (lit "Asia/Taipei"))
    /\ path [lit "end"; lit "timeZone"] body = Some (PStr (lit "Asia/Taipei")).
Proof.
  intros Hs. pose proof (event_body_dict _ Hs) as Hb.
  eexists. split; [exact Hb |].
  split; [now apply insert_event_built |].
  repeat split; try reflexivity.
  intros Hn. unfold summary_of. rewrite Hn. reflexivity.
Qed.

Lemma insert_request_shape_witness :
  Py.lookup (lit "start_time") Sample.untitled_items
  = Some (PStr (lit "2026-01-20T10:00:00"))
  /\ exists body,
       event_body Sample.untitled = Ok body
       /\ path [lit "summary"] body = Some placeholder_title
       /\ path [lit "end"; lit "timeZone"] body
          = path [lit "start"; lit "timeZone"] body.
Proof.
  split; [reflexivity |].
  destruct (@insert_request_shape
              Sample.quiet Sample.service Sample.untitled_items
              (PStr (lit "2026-01-20T10:00:00")) [] eq_refl)
    as (body & Hb & _ & _ & Hp & _ & Hs & He).
  exists body. split; [exact Hb |]. split; [now apply Hp |].
  now rewrite Hs, He.
Defined.

(** C10. For every event without a title whose insertion succeeds, the
    loop still reports a failure for it and leaves the success count as
    it was: the request is sent, the success notification then reads the
    missing [summary], and the [KeyError] lands in the handler of the
    same [try].  The loop goes on with the next event. *)
Theorem untitled_event_is_reported_as_failure E svc items start rest n log :
  Py.lookup (lit "summary") items = None ->
  Py.lookup (lit "start_time") items = Some start ->
  execute_insert E (count is_insert log) (lit "primary")
    (make_body placeholder_title start (end_of items start)) = Ok tt ->
  schedule_events E svc (PDict items :: rest) n log
  = schedule_events E svc rest n
      (log ++ [CalendarInsert (lit "primary")
                 (make_body placeholder_title start (end_of items start));
               StError (msg_create_failed (KeyError (lit "summary")))]).
Proof.
  intros Hn Hs Hx. simpl.
  unfold bind at 1, try_except, bind at 1, insert_event, bind at 1, lift.
  rewrite (event_body_dict _ Hs). unfold summary_of. rewrite Hn.
  unfold bind at 1, calendar_insert. rewrite Hx.
  unfold bind at 1, Py.getitem. rewrite Hn.
  unfold bind, tell, ret. rewrite <- app_assoc. reflexivity.
Qed.

Lemma untitled_event_is_reported_as_failure_witness :
  Py.lookup (lit "summary") Sample.untitled_items = None
  /\ Py.lookup (lit "start_time") Sample.untitled_items
     = Some (PStr (lit "2026-01-20T10:00:00"))
  /\ execute_insert Sample.quiet 0 (lit "primary")
       (make_body placeholder_title (PStr (lit "2026-01-20T10:00:00"))
          (PStr (lit "2026-01-20T10:00:00"))) = Ok tt
  /\ schedule_events Sample.quiet Sample.service [Sample.untitled] 0 []
     = ([CalendarInsert (lit "primary")
           (make_body placeholder_title (PStr (lit "2026-01-20T10:00:00"))
              (PStr (lit "2026-01-20T10:00:00")));
         StError (msg_create_failed (KeyError (lit "summary")))],
        Ok 0).
Proof.
  split; [reflexivity |]. split; [reflexivity |]. split; [reflexivity |].
  exact (@untitled_event_is_reported_as_failure Sample.quiet Sample.service
           Sample.untitled_items (PStr (lit "2026-01-20T10:00:00"))
           [] 0 [] eq_refl eq_refl eq_refl).
Defined.

(** ** The end time *)

(** C1, as the code has it.  For every event with a start time, the end
    time submitted is the event's own [end_time] when it has one, taken
    as it is; otherwise it is the start time itself: the writer adds no
    hour (the default of one hour is asked of the model, in the prompt).
    The fallback is applied in one place, once, and the submitted end
    time of an event without [end_time] is not [None] when its start
    time is not. *)
Theorem end_time_defaults_to_start_time items start :
  Py.lookup (lit "start_time") items = Some start ->
  (forall given,
      Py.lookup (lit "end_time") items = Some given ->
      submitted_end (PDict items) = Some given)
  /\ (Py.lookup (lit "end_time") items = None ->
      submitted_end (PDict items) = Some start
      /\ (start <> PNone -> submitted_end (PDict items) <> Some PNone)).
Proof.
  intros Hs. unfold submitted_end. rewrite (event_body_dict _ Hs).
  unfold end_of. split.
  - intros given Hg. rewrite Hg. reflexivity.
  - intros Hn. rewrite Hn. split; [reflexivity |].
    intros Hne H. apply Hne. simpl in H. now inversion H.
Qed.

Lemma end_time_defaults_to_start_time_witness :
  Py.lookup (lit "start_time") Sample.untitled_items
  = Some (PStr (lit "2026-01-20T10:00:00"))
  /\ submitted_end Sample.untitled = Some (PStr (lit "2026-01-20T10:00:00")).
Proof.
  split; [reflexivity |].
  exact (proj1 (proj2 (@end_time_defaults_to_start_time
                         Sample.untitled_items
                         (PStr (lit "2026-01-20T10:00:00")) eq_refl)
                  eq_refl)).
Defined.

(** C1 as stated fails: for the event of the prompt's example without its
    end time, one hour after the start is 11:00, and the writer submits
    10:00, the start time. *)
Lemma end_time_is_not_start_plus_one_hour :
  IsoTime.plus_one_hour (lit "2026-01-20T10:00:00")
  = Some (lit "2026-01-20T11:00:00")
  /\ submitted_end Sample.open_ended = Some (PStr (lit "2026-01-20T10:00:00"))
  /\ ~ end_defaults_to_start_plus_one_hour Sample.open_ended.
Proof.
  split; [reflexivity |]. split; [reflexivity |].
  intros H.
  destruct (H (lit "2026-01-20T10:00:00") eq_refl eq_refl)
    as [later [Hl He]].
  vm_compute in Hl. vm_compute in He.
  inversion Hl as [Hl']. rewrite <- Hl' in He. discriminate He.
Qed.

(** ** The calendar client factory *)

Ltac run_service :=
  unfold get_calendar_service, bind, lift, from_authorized_user_info,
    try_except, refresh, build, tell, ret, bind, lift;
  simpl.

Lemma service_without_token E log :
  Py.truthy (TOKEN_DICT E) = false ->
  get_calendar_service E log = (log ++ [StError msg_no_credentials], Ok None).
Proof. intros Ht. run_service. rewrite Ht. reflexivity. Qed.

Lemma service_with_valid_token E log st :
  Py.truthy (TOKEN_DICT E) = true ->
  authorized_user_info E (TOKEN_DICT E) = Ok st ->
  valid st = true ->
  get_calendar_service E log
  = (log ++ [Build (lit "calendar") (lit "v3")],
     Ok (Some (calendar_service (with_scopes st)))).
Proof. intros Ht Ha Hv. run_service. rewrite Ht, Ha. simpl. rewrite Hv. reflexivity. Qed.

Lemma service_not_refreshable E log st :
  Py.truthy (TOKEN_DICT E) = true ->
  authorized_user_info E (TOKEN_DICT E) = Ok st ->
  valid st = false ->
  expired st && has_refresh_token (with_scopes st) = false ->
  get_calendar_service E log = (log ++ [StError msg_no_credentials], Ok None).
Proof.
  intros Ht Ha Hv Hr. run_service. rewrite Ht, Ha. simpl. rewrite Hv.
  unfold with_scopes in Hr. rewrite Hr. reflexivity.
Qed.

Lemma service_refresh_fails E log st e :
  Py.truthy (TOKEN_DICT E) = true ->
  authorized_user_info E (TOKEN_DICT E) = Ok st ->
  valid st = false ->
  expired st && has_refresh_token (with_scopes st) = true ->
  refresh_request E st = Raise e ->
  get_calendar_service E log
  = (log ++ [Refresh; StError msg_refresh_failed], Ok None).
Proof.
  intros Ht Ha Hv Hr He. run_service. rewrite Ht, Ha. simpl. rewrite Hv.
  unfold with_scopes in Hr. rewrite Hr, He. simpl.
  rewrite <- app_assoc. reflexivity.
Qed.

Lemma service_refreshed E log st st' :
  Py.truthy (TOKEN_DICT E) = true ->
  authorized_user_info E (TOKEN_DICT E) = Ok st ->
  valid st = false ->
  expired st && has_refresh_token (with_scopes st) = true ->
  refresh_request E st = Ok st' ->
  get_calendar_service E log
  = (log ++ [Refresh; Build (lit "calendar") (lit "v3")],
     Ok (Some (calendar_service (with_scopes st')))).
Proof.
  intros Ht Ha Hv Hr He. run_service. rewrite Ht, Ha. simpl. rewrite Hv.
  unfold with_scopes in Hr. rewrite Hr, He. simpl.
  rewrite <- app_assoc. reflexivity.
Qed.

(** The token cannot be read: the exception leaves the function. *)
Lemma service_token_unreadable E log e :
  Py.truthy (TOKEN_DICT E) = true ->
  authorized_user_info E (TOKEN_DICT E) = Raise e ->
  get_calendar_service E log = (log, Raise e).
Proof. intros Ht Ha. run_service. rewrite Ht, Ha. reflexivity. Qed.

(** The five ways the factory can end, and the sixth, an exception of
    the library that reads the token. *)
Lemma get_calendar_service_cases E log :
  exists t r,
    get_calendar_service E log = (log ++ t, r)
    /\ ((t = [StError msg_no_credentials] /\ r = Ok None)
        \/ (t = [Refresh; StError msg_refresh_failed] /\ r = Ok None)
        \/ (exists e, t = [] /\ r = Raise e)
        \/ (exists st,
              t = [Build (lit "calendar") (lit "v3")]
              /\ r = Ok (Some (calendar_service (with_scopes st))))
        \/ (exists st,
              t = [Refresh; Build (lit "calendar") (lit "v3")]
              /\ r = Ok (Some (calendar_service (with_scopes st))))).
Proof.
  destruct (Py.truthy (TOKEN_DICT E)) eqn:Ht.
  2:{ eexists _, _. split; [now apply service_without_token | auto]. }
  destruct (authorized_user_info E (TOKEN_DICT E)) as [st | e] eqn:Ha.
  2:{ exists [], (Raise e). rewrite app_nil_r.
      split; [now apply service_token_unreadable |].
      right. right. left. now exists e. }
  destruct (valid st) eqn:Hv.
  { eexists _, _. split; [now apply (service_with_valid_token E log Ht Ha) |].
    right. right. right. left. now exists st. }
  destruct (expired st && has_refresh_token (with_scopes st)) eqn:Hr.
  2:{ eexists _, _.
      split; [now apply (service_not_refreshable E log Ht Ha) | auto]. }
  destruct (refresh_request E st) as [st' | e] eqn:He.
  - eexists _, _.
    split; [now apply (service_refreshed E log Ht Ha Hv Hr He) |].
    right. right. right. right. now exists st'.
  - eexists _, _.
    split; [now apply (service_refresh_fails E log Ht Ha Hv Hr He) | auto].
Qed.

(** C7. The factory asks for a refresh only when a credential exists, is
    not valid, is expired and carries a refresh token.  Without a token,
    with a credential that is invalid and cannot be refreshed, or when the
    refresh raises, it reports a credential error and returns no handle.
    A handle, when one is returned, is the calendar service built on
    credentials with the one scope of [SCOPES], the calendar scope: from
    the valid credential, or from the refreshed one. *)
Theorem calendar_service_outcomes E log :
  (exists t r,
      get_calendar_service E log = (log ++ t, r)
      /\ (In Refresh t ->
          exists st,
            Py.truthy (TOKEN_DICT E) = true
            /\ authorized_user_info E (TOKEN_DICT E) = Ok st
            /\ valid st = false /\ expired st = true
            /\ has_refresh_token (with_scopes st) = true)
      /\ (r = Ok None ->
          (t = [StError msg_no_credentials]
           \/ t = [Refresh; StError msg_refresh_failed]))
      /\ (forall svc, r = Ok (Some svc) ->
          count is_error t = 0
          /\ serviceName svc = lit "calendar"
          /\ scopes (credentials svc)
             = [lit "https://www.googleapis.com/auth/calendar"]))
  /\ (Py.truthy (TOKEN_DICT E) = false ->
      get_calendar_service E log
      = (log ++ [StError msg_no_credentials], Ok None))
  /\ (forall st,
        Py.truthy (TOKEN_DICT E) = true ->
        authorized_user_info E (TOKEN_DICT E) = Ok st ->
        (valid st = true ->
         get_calendar_service E log
         = (log ++ [Build (lit "calendar") (lit "v3")],
            Ok (Some (calendar_service (with_scopes st)))))
        /\ (valid st = false ->
            expired st && has_refresh_token (with_scopes st) = false ->
            get_calendar_service E log
            = (log ++ [StError msg_no_credentials], Ok None))
        /\ (valid st = false ->
            expired st && has_refresh_token (with_scopes st) = true ->
            (forall e,
                refresh_request E st = Raise e ->
                get_calendar_service E log
                = (log ++ [Refresh; StError msg_refresh_failed], Ok None))
            /\ (forall st',
                   refresh_request E st = Ok st' ->
                   get_calendar_service E log
                   = (log ++ [Refresh; Build (lit "calendar") (lit "v3")],
                      Ok (Some (calendar_service (with_scopes st'))))))).
Proof.
  split; [| split; [apply service_without_token |]].
  - destruct (Py.truthy (TOKEN_DICT E)) eqn:Ht.
    2:{ eexists _, _. split; [now apply service_without_token |].
        split; [| split].
        - intros [H | []]. discriminate H.
        - auto.
        - intros svc H. discriminate H. }
    destruct (authorized_user_info E (TOKEN_DICT E)) as [st | e] eqn:Ha.
    2:{ exists [], (Raise e). rewrite app_nil_r.
        split; [now apply service_token_unreadable |].
        split; [| split].
        - intros [].
        - intros H. discriminate H.
        - intros svc H. discriminate H. }
    destruct (valid st) eqn:Hv.
    { eexists _, _. split; [now apply (service_with_valid_token E log Ht Ha) |].
      split; [| split].
      - intros [H | []]. discriminate H.
      - intros H. discriminate H.
      - intros svc H. inversion H. auto. }
    destruct (expired st && has_refresh_token (with_scopes st)) eqn:Hr.
    2:{ eexists _, _.
        split; [now apply (service_not_refreshable E log Ht Ha) |].
        split; [| split].
        - intros [H | []]. discriminate H.
        - auto.
        - intros svc H. discriminate H. }
    assert (Hst : exists st0,
               true = true
               /\ Ok st = Ok st0
               /\ valid st0 = false /\ expired st0 = true
               /\ has_refresh_token (with_scopes st0) = true).
    { apply andb_true_iff in Hr. destruct Hr. exists st. auto. }
    destruct (refresh_request E st) as [st' | e] eqn:He.
    + eexists _, _.
      split; [now apply (service_refreshed E log Ht Ha Hv Hr He) |].
      split; [| split].
      * intros _. exact Hst.
      * intros H. discriminate H.
      * intros svc H. inversion H. auto.
    + eexists _, _.
      split; [now apply (service_refresh_fails E log Ht Ha Hv Hr He) |].
      split; [| split].
      * intros _. exact Hst.
      * auto.
      * intros svc H. discriminate H.
  - intros st Ht Ha. split; [| split].
    + now apply service_with_valid_token.
    + now apply service_not_refreshable.
    + intros Hv Hr. split.
      * intros e He. now apply (service_refresh_fails E log Ht Ha Hv Hr He).
      * intros st' He. now apply (service_refreshed E log Ht Ha Hv Hr He).
Qed.

Lemma calendar_service_outcomes_witness :
  get_calendar_service Sample.stale []
  = ([Refresh; StError msg_refresh_failed], Ok None).
Proof.
  destruct (calendar_service_outcomes Sample.stale []) as (_ & _ & Hcases).
  destruct (Hcases Sample.stale_token eq_refl eq_refl) as (_ & _ & Hrefresh).
  destruct (Hrefresh eq_refl eq_refl) as (Hfails & _).
  exact (Hfails Sample.refused eq_refl).
Defined.

(** ** Documents without text *)

Lemma extract_pages_without_text pages text :
  existsb page_has_text pages = false ->
  (existsb page_fails pages = false -> extract_pages pages text = Ok text)
  /\ (existsb page_fails pages = true ->
      exists e, extract_pages pages text = Raise e).
Proof.
  induction pages as [| p rest IH]; simpl; intros Hn.
  - split; [reflexivity | discriminate].
  - apply orb_false_iff in Hn. destruct Hn as [Hp Hrest].
    destruct p as [[[| c s] |] | e]; simpl in *; try discriminate Hp;
      try (now apply IH).
    split; [discriminate | intros _; now exists e].
Qed.

(** C6, as the code has it.  For every document that yields no text the
    extraction returns [None] when the document cannot be opened or a page
    cannot be parsed, and the empty string otherwise; both are false for
    the caller, which shows the error and stops: the analyzer is not
    entered, so the model is not called. *)
Theorem document_without_text_halts E file log :
  has_text file = false ->
  (unreadable file = true -> extract_text_from_pdf file = None)
  /\ (unreadable file = false -> extract_text_from_pdf file = Some [])
  /\ submit_pdf E file log = (log ++ [StError msg_cannot_read_pdf], Ok tt)
  /\ count is_model_call (fst (submit_pdf E file log))
     = count is_model_call log.
Proof.
  intros Hn.
  assert (Hcases : (unreadable file = true /\ extract_text_from_pdf file = None)
           \/ (unreadable file = false
               /\ extract_text_from_pdf file = Some [])).
  { destruct file as [pages | e]; [| left; auto].
    simpl in Hn. unfold extract_text_from_pdf. simpl.
    destruct (extract_pages_without_text pages [] Hn) as [Hok Hfail].
    destruct (existsb page_fails pages).
    - left. destruct (Hfail eq_refl) as [e He]. rewrite He. auto.
    - right. rewrite (Hok eq_refl). auto. }
  assert (Hs : submit_pdf E file log
               = (log ++ [StError msg_cannot_read_pdf], Ok tt)).
  { unfold submit_pdf. destruct Hcases as [[_ ->] | [_ ->]]; reflexivity. }
  repeat split.
  - intros Hu. destruct Hcases as [[_ H] | [H _]]; [exact H | congruence].
  - intros Hu. destruct Hcases as [[H _] | [_ H]]; [congruence | exact H].
  - exact Hs.
  - rewrite Hs. unfold count. simpl. rewrite filter_app. simpl.
    now rewrite app_nil_r.
Qed.

Lemma document_without_text_halts_witness :
  has_text Sample.scanned = false
  /\ submit_pdf Sample.quiet Sample.scanned []
     = ([StError msg_cannot_read_pdf], Ok tt).
Proof.
  split; [reflexivity |].
  exact (proj1 (proj2 (proj2
    (@document_without_text_halts Sample.quiet Sample.scanned [] eq_refl)))).
Defined.

(** C6 as stated fails in its first part: a scan opens and has no text on
    any page, and the extraction returns the empty string, not [None]. *)
Lemma scanned_document_extracts_empty_string :
  has_text Sample.scanned = false
  /\ extract_text_from_pdf Sample.scanned = Some []
  /\ extract_text_from_pdf Sample.scanned <> None.
Proof. repeat split. discriminate. Qed.

(** ** A whole run *)

Lemma run_model_fails E content e :
  generate_content E model_name (build_prompt (now E) content) = Raise e ->
  run (analyze_and_schedule E content)
  = (preamble E content ++ [StError (msg_analysis_failed e)], Ok tt).
Proof.
  intros H. unfold run, analyze_and_schedule, bind, try_except, call_model,
    bind, lift, tell. simpl. rewrite H. reflexivity.
Qed.

Lemma run_parse_fails E content text e :
  generate_content E model_name (build_prompt (now E) content) = Ok text ->
  json_loads E (clean_reply text) = Raise e ->
  run (analyze_and_schedule E content)
  = (preamble E content ++ [StError (msg_analysis_failed e)], Ok tt).
Proof.
  intros H1 H2. unfold run, analyze_and_schedule, bind, try_except,
    call_model, bind, lift, tell. simpl. rewrite H1, H2. reflexivity.
Qed.

Lemma run_parsed E content text data :
  generate_content E model_name (build_prompt (now E) content) = Ok text ->
  json_loads E (clean_reply text) = Ok data ->
  run (analyze_and_schedule E content)
  = write_events E data (preamble E content).
Proof.
  intros H1 H2. unfold run, analyze_and_schedule, bind, try_except,
    call_model, bind, lift, tell. simpl. rewrite H1, H2. reflexivity.
Qed.

Lemma write_events_none E data log :
  Py.truthy data = false \/ Py.contains (lit "events") data = Ok false ->
  write_events E data log = (log ++ [StWarning msg_no_events], Ok tt).
Proof.
  intros H. unfold write_events, no_events, bind, lift, ret.
  destruct (Py.truthy data); simpl.
  - destruct H as [H | H]; [discriminate H |]. rewrite H. reflexivity.
  - reflexivity.
Qed.

(** C5, as the code has it.  When the call of the model raises or the
    cleaned reply does not parse, the failure is reported as an analysis
    failure and the invocation ends: one call of the model, no calendar
    call of any kind.  A reply that parses to a value of another shape is
    not reported as a failure of the analysis: when the value is empty or
    does not contain the events key, the user gets the warning that no
    event was found, and the invocation ends there, again with no
    calendar call. *)
Theorem unparsable_reply_halts E content :
  (forall e,
      (generate_content E model_name (build_prompt (now E) content) = Raise e
       \/ exists text,
            generate_content E model_name (build_prompt (now E) content)
            = Ok text
            /\ json_loads E (clean_reply text) = Raise e) ->
      run (analyze_and_schedule E content)
      = (preamble E content ++ [StError (msg_analysis_failed e)], Ok tt)
      /\ count is_model_call (fst (run (analyze_and_schedule E content))) = 1
      /\ count is_calendar_call (fst (run (analyze_and_schedule E content)))
         = 0)
  /\ (forall text data,
         generate_content E model_name (build_prompt (now E) content)
         = Ok text ->
         json_loads E (clean_reply text) = Ok data ->
         (Py.truthy data = false
          \/ Py.contains (lit "events") data = Ok false) ->
         run (analyze_and_schedule E content)
         = (preamble E content ++ [StWarning msg_no_events], Ok tt)).
Proof.
  split.
  - intros e H.
    assert (Hr : run (analyze_and_schedule E content)
                 = (preamble E content ++ [StError (msg_analysis_failed e)],
                    Ok tt)).
    { destruct H as [H | [text [H1 H2]]].
      - now apply run_model_fails.
      - now apply run_parse_fails with text. }
    rewrite Hr. auto.
  - intros text data H1 H2 H. rewrite (run_parsed _ _ H1 H2).
    now apply write_events_none.
Qed.

Lemma unparsable_reply_halts_witness :
  run (analyze_and_schedule Sample.prose_reply (lit "lunch"))
  = (preamble Sample.prose_reply (lit "lunch")
       ++ [StError (msg_analysis_failed
                      (LibraryError
                         (lit "Expecting value: line 1 column 1 (char 0)")))],
     Ok tt).
Proof.
  apply (proj1 (unparsable_reply_halts Sample.prose_reply (lit "lunch"))).
  right. exists (lit "No events found."). split; reflexivity.
Defined.

(** C5 as stated fails for a reply of another shape: the model answers
    with the list [[1]], the text parses, and the user gets the warning
    that no event was found, not an analysis failure. *)
Lemma unexpected_shape_is_not_an_analysis_failure :
  json_loads Sample.list_reply (clean_reply (lit "[1]")) = Ok (PList [PInt 1])
  /\ run (analyze_and_schedule Sample.list_reply (lit "lunch"))
     = (preamble Sample.list_reply (lit "lunch") ++ [StWarning msg_no_events],
        Ok tt)
  /\ count is_error
       (fst (run (analyze_and_schedule Sample.list_reply (lit "lunch")))) = 0.
Proof. split; [| split]; reflexivity. Qed.

(** ** No events *)

Lemma count_app p (a b : list effect) : count p (a ++ b) = count p a + count p b.
Proof. unfold count. now rewrite filter_app, length_app. Qed.

Lemma write_events_empty_list E items log :
  Py.lookup (lit "events") items = Some (PList []) ->
  exists t r,
    get_calendar_service E log = (log ++ t, r)
    /\ write_events E (PDict items) log
       = (log ++ t, rbind r (fun _ => Ok tt)).
Proof.
  intros He.
  destruct (get_calendar_service_cases E log) as (t & r & Hg & Hc).
  exists t, r. split; [exact Hg |].
  unfold write_events, no_events, bind, lift, ret, Py.contains, Py.truthy.
  destruct items as [| kv items']; [discriminate He |].
  rewrite He. cbv beta iota delta [negb].
  rewrite Hg.
  destruct Hc as [[_ ->] | [[_ ->] | [[e [_ ->]] | [[st [_ ->]] | [st [_ ->]]]]]];
    try reflexivity;
    cbv beta iota; unfold Py.getitem; rewrite He; reflexivity.
Qed.

(** C3, as the code has it.  For every reply that parses to an object
    whose events key maps to an empty list, no insert request is issued
    and nothing is said about events: the log only holds what the client
    factory adds, which is no message at all when it returns a handle and
    one credential error when it does not.  When the key is absent the
    user gets the warning that no event was found, not an error, and no
    calendar call of any kind is made. *)
Theorem empty_events_insert_nothing E content text items :
  generate_content E model_name (build_prompt (now E) content) = Ok text ->
  json_loads E (clean_reply text) = Ok (PDict items) ->
  (Py.lookup (lit "events") items = Some (PList []) ->
   exists t r,
     get_calendar_service E (preamble E content)
     = (preamble E content ++ t, r)
     /\ run (analyze_and_schedule E content)
        = (preamble E content ++ t, rbind r (fun _ => Ok tt))
     /\ count is_insert (preamble E content ++ t) = 0
     /\ count is_warning (preamble E content ++ t) = 0
     /\ (forall svc, r = Ok (Some svc) ->
         count is_message (preamble E content ++ t) = 0))
  /\ (Py.lookup (lit "events") items = None ->
      run (analyze_and_schedule E content)
      = (preamble E content ++ [StWarning msg_no_events], Ok tt)
      /\ count is_error (preamble E content ++ [StWarning msg_no_events]) = 0
      /\ count is_calendar_call
           (preamble E content ++ [StWarning msg_no_events]) = 0).
Proof.
  intros H1 H2. rewrite (run_parsed _ _ H1 H2). split.
  - intros He.
    destruct (get_calendar_service_cases E (preamble E content))
      as (t & r & Hg & Hc).
    destruct (write_events_empty_list E items (preamble E content) He)
      as (t' & r' & Hg' & Hw).
    rewrite Hg in Hg'. inversion Hg' as [[Ht Hr]].
    subst t' r'.
    exists t, r. split; [exact Hg |]. split; [exact Hw |].
    destruct Hc as [[-> ->] | [[-> ->] | [[e [-> ->]] | [[st [-> ->]] | [st [-> ->]]]]]];
      (split; [reflexivity |]); (split; [reflexivity |]);
      intros svc Hs; solve [discriminate Hs | reflexivity].
  - intros Hn. split; [| split; reflexivity].
    apply write_events_none.
    destruct items as [| kv items']; [left; reflexivity |].
    right. unfold Py.contains. now rewrite Hn.
Qed.

Lemma empty_events_insert_nothing_witness :
  Py.lookup (lit "events") [ (lit "note", PNone) ] = None
  /\ run (analyze_and_schedule Sample.other_key_reply (lit "lunch"))
     = (preamble Sample.other_key_reply (lit "lunch")
          ++ [StWarning msg_no_events], Ok tt).
Proof.
  split; [reflexivity |].
  exact (proj1 (proj2
    (@empty_events_insert_nothing Sample.other_key_reply (lit "lunch")
       Sample.other_key_text [ (lit "note", PNone) ] eq_refl eq_refl)
    eq_refl)).
Defined.

(** C3 as stated fails in its second part: the model answers with a
    fenced object whose events list is empty, the credentials are valid,
    and the run ends without any message: the user sees neither a warning
    nor an error. *)
Lemma empty_events_list_shows_no_message :
  json_loads Sample.nothing_found (clean_reply Sample.nothing_found_reply)
  = Ok (PDict [ (lit "events", PList []) ])
  /\ run (analyze_and_schedule Sample.nothing_found (lit "lunch"))
     = (preamble Sample.nothing_found (lit "lunch")
          ++ [Build (lit "calendar") (lit "v3")], Ok tt)
  /\ count is_message
       (fst (run (analyze_and_schedule Sample.nothing_found (lit "lunch"))))
     = 0.
Proof. split; [| split]; reflexivity. Qed.

(** ** The loop over the events *)

(** One pass of the loop over a well-formed event: the request is sent;
    the event counts when the insertion succeeds, and an error is shown
    when it does not.  Either way the loop goes on. *)
Lemma schedule_events_step E svc event rest n log :
  well_formed event = true ->
  exists body title,
    event_body event = Ok body
    /\ schedule_events E svc (event :: rest) n log
       = match execute_insert E (count is_insert log) (lit "primary") body with
         | Ok _ =>
             schedule_events E svc rest (S n)
               (log ++ [CalendarInsert (lit "primary") body;
                        StToast (msg_created title)])
         | Raise e =>
             schedule_events E svc rest n
               (log ++ [CalendarInsert (lit "primary") body;
                        StError (msg_create_failed e)])
         end.
Proof.
  intros Hw. destruct event as [| b | z | f | s | l | items];
    try discriminate Hw.
  simpl in Hw.
  destruct (Py.lookup (lit "summary") items) as [title |] eqn:Ht;
    [| discriminate Hw].
  destruct (Py.lookup (lit "start_time") items) as [start |] eqn:Hs;
    [| discriminate Hw].
  exists (make_body (summary_of items) start (end_of items start)), title.
  split; [now apply event_body_dict |].
  simpl.
  unfold bind at 1, try_except, bind at 1, insert_event, bind at 1, lift.
  rewrite (event_body_dict _ Hs).
  unfold bind at 1, calendar_insert.
  destruct (execute_insert E (count is_insert log) (lit "primary")
              (make_body (summary_of items) start (end_of items start)))
    as [[] | e].
  - unfold bind at 1, Py.getitem. rewrite Ht.
    unfold bind, tell, ret. rewrite <- app_assoc. reflexivity.
  - unfold bind, tell, ret. rewrite <- app_assoc. reflexivity.
Qed.

Lemma schedule_events_well_formed E svc events :
  Forall (fun event => well_formed event = true) events ->
  forall n log,
  exists t,
    schedule_events E svc events n log
    = (log ++ t,
       Ok (n + successes (outcomes E (count is_insert log) events)))
    /\ filter is_insert t = requests events
    /\ count is_error t = failures (outcomes E (count is_insert log) events)
    /\ Forall (fun e => is_insert e = true \/ exists m, e = StToast m
                        \/ e = StError m) t.
Proof.
  induction 1 as [| event rest Hw _ IH]; intros n log.
  - exists []. simpl. rewrite app_nil_r, Nat.add_0_r. auto.
  - destruct (@schedule_events_step E svc event rest n log Hw)
      as (body & title & Hb & Hstep).
    rewrite Hstep. simpl outcomes. rewrite Hb.
    unfold requests. simpl flat_map. rewrite Hb. fold (requests rest).
    destruct (execute_insert E (count is_insert log) (lit "primary") body)
      as [[] | e].
    + destruct (IH (S n) (log ++ [CalendarInsert (lit "primary") body;
                                  StToast (msg_created title)]))
        as (t & Hrun & Hreq & Herr & Hall).
      rewrite count_app in Hrun, Herr. unfold count at 2 in Hrun.
      unfold count at 3 in Herr.
      simpl in Hrun, Herr.
      replace (count is_insert log + 1) with (S (count is_insert log))
        in Hrun, Herr by lia.
      exists (CalendarInsert (lit "primary") body
                :: StToast (msg_created title) :: t).
      rewrite Hrun, <- app_assoc. simpl.
      split; [unfold successes; simpl; f_equal; f_equal; lia |].
      split; [now rewrite Hreq |].
      split; [exact Herr |].
      constructor; [now left |]. constructor; [| exact Hall].
      right. exists (msg_created title). now left.
    + destruct (IH n (log ++ [CalendarInsert (lit "primary") body;
                              StError (msg_create_failed e)]))
        as (t & Hrun & Hreq & Herr & Hall).
      rewrite count_app in Hrun, Herr. unfold count at 2 in Hrun.
      unfold count at 3 in Herr.
      simpl in Hrun, Herr.
      replace (count is_insert log + 1) with (S (count is_insert log))
        in Hrun, Herr by lia.
      exists (CalendarInsert (lit "primary") body
                :: StError (msg_create_failed e) :: t).
      rewrite Hrun, <- app_assoc. simpl.
      split; [reflexivity |].
      split; [now rewrite Hreq |].
      split; [unfold count in *; unfold failures; simpl; now rewrite Herr |].
      constructor; [now left |]. constructor; [| exact Hall].
      right. exists (msg_create_failed e). now right.
Qed.

Lemma requests_well_formed events :
  Forall (fun event => well_formed event = true) events ->
  List.length (requests events) = List.length events.
Proof.
  induction 1 as [| event rest Hw _ IH]; [reflexivity |].
  unfold requests. simpl. fold (requests rest).
  destruct event as [| b | z | f | s | l | items]; try discriminate Hw.
  simpl in Hw.
  destruct (Py.lookup (lit "summary") items); [| discriminate Hw].
  destruct (Py.lookup (lit "start_time") items) as [start |] eqn:Hs;
    [| discriminate Hw].
  rewrite (event_body_dict _ Hs). simpl. now rewrite IH.
Qed.

Lemma count_insert_after log c b e :
  is_insert e = false ->
  count is_insert (log ++ [CalendarInsert c b; e]) = S (count is_insert log).
Proof.
  intros He. rewrite count_app. unfold count at 2. simpl. rewrite He.
  simpl. lia.
Qed.

(** One pass of the loop over any value: whatever happens in the [try],
    the loop goes on with the next event; the request is sent when a body
    can be built, and the count grows by one at most. *)
Lemma schedule_events_any_step E svc event rest n log :
  exists t n',
    schedule_events E svc (event :: rest) n log
    = schedule_events E svc rest n' (log ++ t)
    /\ filter is_insert t = requests [event]
    /\ (n' = n \/ n' = S n).
Proof.
  simpl.
  unfold bind at 1, try_except, bind at 1, insert_event, bind at 1, lift.
  unfold requests. simpl flat_map. rewrite app_nil_r.
  destruct (event_body event) as [body | e].
  - unfold bind at 1, calendar_insert.
    destruct (execute_insert E (count is_insert log) (lit "primary") body)
      as [[] | e].
    + unfold bind at 1.
      destruct (Py.getitem event (lit "summary")) as [title | e].
      * exists [CalendarInsert (lit "primary") body;
                StToast (msg_created title)], (S n).
        unfold bind, tell, ret. rewrite <- app_assoc. auto.
      * exists [CalendarInsert (lit "primary") body;
                StError (msg_create_failed e)], n.
        unfold bind, tell, ret. rewrite <- app_assoc. auto.
    + exists [CalendarInsert (lit "primary") body;
              StError (msg_create_failed e)], n.
      unfold bind, tell, ret. rewrite <- app_assoc. auto.
  - exists [StError (msg_create_failed e)], n.
    unfold bind, tell, ret. auto.
Qed.

(** The loop never raises, whatever the events are, and sends the request
    of every event that has one, in order. *)
Lemma schedule_events_total E svc events :
  forall n log,
  exists t n',
    schedule_events E svc events n log = (log ++ t, Ok n')
    /\ filter is_insert t = requests events
    /\ n' <= n + List.length events.
Proof.
  induction events as [| event rest IH]; intros n log.
  - exists [], n. simpl. rewrite app_nil_r. split; [reflexivity |].
    split; [reflexivity | lia].
  - destruct (schedule_events_any_step E svc event rest n log)
      as (t1 & n1 & Hstep & Hreq1 & Hn1).
    destruct (IH n1 (log ++ t1)) as (t2 & n2 & Hrun & Hreq2 & Hn2).
    exists (t1 ++ t2), n2. rewrite Hstep, Hrun, app_assoc.
    split; [reflexivity |]. split.
    + rewrite filter_app, Hreq1, Hreq2. unfold requests.
      simpl flat_map. now rewrite app_nil_r.
    + simpl. destruct Hn1; lia.
Qed.

(** C4. For every list of events the loop never aborts: a failure in
    the [try] of one event is caught, and the loop goes on with the next
    one, so every event for which a request is built has it sent, in
    order.  For event candidates (records with a title and a start time)
    one request is sent per candidate, each failed insertion shows one
    error, and the final count is the number of insertions that
    succeeded.  In particular, when the list has three candidates and
    only the second insertion fails, the writer sends three requests,
    shows one failure message, and reports a count of two. *)
Theorem insertion_failures_are_independent E svc events log :
  (exists t n,
      schedule_events E svc events 0 log = (log ++ t, Ok n)
      /\ filter is_insert t = requests events
      /\ n <= List.length events)
  /\ (Forall (fun event => well_formed event = true) events ->
      (exists t,
          schedule_events E svc events 0 log
          = (log ++ t,
             Ok (successes (outcomes E (count is_insert log) events)))
          /\ filter is_insert t = requests events
          /\ count is_insert t = List.length events
          /\ count is_error t
             = failures (outcomes E (count is_insert log) events))
      /\ (forall x,
             outcomes E (count is_insert log) events
             = [Ok tt; Raise x; Ok tt] ->
             exists t,
               (success_count <- schedule_events E svc events 0 ;;
                report_success success_count) log
               = (log ++ t, Ok tt)
               /\ count is_insert t = 3
               /\ filter is_error t = [StError (msg_create_failed x)]
               /\ count is_toast t = 2
               /\ filter is_success t = [StSuccess (msg_success 2)])).
Proof.
  split; [apply schedule_events_total |].
  intros Hw. split.
  - destruct (schedule_events_well_formed E svc Hw 0 log)
      as (t & Hrun & Hreq & Herr & _).
    exists t. split; [exact Hrun |]. split; [exact Hreq |].
    split; [| exact Herr].
    unfold count. rewrite Hreq. now apply requests_well_formed.
  - intros x Hout.
    destruct events as [| e1 [| e2 [| e3 [| e4 rest]]]];
      try discriminate Hout.
    inversion Hw as [| ? ? Hw1 Hw']; subst.
    inversion Hw' as [| ? ? Hw2 Hw'']; subst.
    inversion Hw'' as [| ? ? Hw3 _]; subst.
    destruct (@schedule_events_step E svc e1 [e2; e3] 0 log Hw1)
      as (b1 & t1 & Hb1 & Hs1).
    simpl outcomes in Hout. rewrite Hb1 in Hout.
    injection Hout as Ho1 Ho2 Ho3.
    rewrite Ho1 in Hs1.
    set (log1 := log ++ [CalendarInsert (lit "primary") b1;
                         StToast (msg_created t1)]) in *.
    assert (Hc1 : count is_insert log1 = S (count is_insert log))
      by (now apply count_insert_after).
    destruct (@schedule_events_step E svc e2 [e3] 1 log1 Hw2)
      as (b2 & t2 & Hb2 & Hs2).
    rewrite Hb2 in Ho2. rewrite Hc1, Ho2 in Hs2.
    set (log2 := log1 ++ [CalendarInsert (lit "primary") b2;
                          StError (msg_create_failed x)]) in *.
    assert (Hc2 : count is_insert log2 = S (S (count is_insert log)))
      by (unfold log2; rewrite count_insert_after, Hc1; reflexivity).
    destruct (@schedule_events_step E svc e3 [] 1 log2 Hw3)
      as (b3 & t3 & Hb3 & Hs3).
    rewrite Hb3 in Ho3. rewrite Hc2, Ho3 in Hs3.
    exists [CalendarInsert (lit "primary") b1; StToast (msg_created t1);
            CalendarInsert (lit "primary") b2; StError (msg_create_failed x);
            CalendarInsert (lit "primary") b3; StToast (msg_created t3);
            StSuccess (msg_success 2); StBalloons].
    split; [| repeat split].
    unfold bind at 1. rewrite Hs1, Hs2, Hs3. simpl.
    unfold report_success, bind, tell. simpl.
    unfold log2, log1. rewrite <- !app_assoc. reflexivity.
Qed.

(** ** Cleaning a reply *)

Lemma starts_with_app_self (old s : str) : starts_with old (old ++ s) = true.
Proof.
  induction old as [| c old IH]; simpl; [reflexivity |].
  now rewrite N.eqb_refl, IH.
Qed.

Lemma remove_from_skip (old a s : str) :
  remove_from old (List.length a) (a ++ s) = remove_from old 0 s.
Proof. induction a as [| c a IH]; simpl; auto. Qed.

(** An occurrence at the head is dropped. *)
Lemma remove_head (c : char) (old s : str) :
  remove (c :: old) ((c :: old) ++ s) = remove (c :: old) s.
Proof.
  unfold remove. change ((c :: old) ++ s) with (c :: old ++ s).
  cbn [remove_from].
  change (c :: old ++ s) with ((c :: old) ++ s).
  rewrite starts_with_app_self.
  replace (List.length (c :: old) - 1) with (List.length old)
    by (simpl; lia).
  apply remove_from_skip.
Qed.

(** A stretch without occurrence is kept. *)
Lemma remove_quiet (old a rest : str) :
  quiet old a rest = true -> remove old (a ++ rest) = a ++ remove old rest.
Proof.
  unfold remove. induction a as [| c a IH]; intros H; [reflexivity |].
  cbn [quiet] in H. apply andb_true_iff in H. destruct H as [Hc Ha].
  apply negb_true_iff in Hc.
  change ((c :: a) ++ rest) with (c :: a ++ rest) in *.
  cbn [remove_from].
  rewrite Hc. rewrite (IH Ha). reflexivity.
Qed.

Lemma quiet_app (old a b rest : str) :
  quiet old (a ++ b) rest = quiet old a (b ++ rest) && quiet old b rest.
Proof.
  induction a as [| c a IH]; [reflexivity |].
  change ((c :: a) ++ b) with (c :: a ++ b).
  cbn [quiet]. rewrite IH.
  change ((c :: a ++ b) ++ rest) with (c :: (a ++ b) ++ rest).
  change ((c :: a) ++ b ++ rest) with (c :: a ++ b ++ rest).
  rewrite <- app_assoc. now rewrite andb_assoc.
Qed.

Lemma fence_chars : fence = [backtick; backtick; backtick].
Proof. reflexivity. Qed.

Lemma fence_json_chars :
  fence_json = [backtick; backtick; backtick; 106; 115; 111; 110]%N.
Proof. reflexivity. Qed.

(** Both markers begin with a backtick. *)
Lemma starts_with_fence_backtick (c : char) (s : str) :
  starts_with fence (c :: s) = true -> c = backtick.
Proof.
  rewrite fence_chars. cbn [starts_with]. intros H.
  apply andb_true_iff in H. destruct H as [H _].
  apply N.eqb_eq in H. now subst.
Qed.

Lemma starts_with_fence_json (s : str) :
  starts_with fence_json s = true -> starts_with fence s = true.
Proof.
  rewrite fence_chars, fence_json_chars.
  destruct s as [| a [| b [| c s]]]; cbn [starts_with]; try discriminate;
    try (rewrite ?andb_false_r; discriminate).
  intros H.
  apply andb_true_iff in H. destruct H as [-> H].
  apply andb_true_iff in H. destruct H as [-> H].
  apply andb_true_iff in H. destruct H as [-> H].
  reflexivity.
Qed.

Lemma quiet_fence_json (a rest : str) :
  quiet fence a rest = true -> quiet fence_json a rest = true.
Proof.
  induction a as [| c a IH]; [reflexivity |].
  cbn [quiet]. intros H. apply andb_true_iff in H. destruct H as [Hc Ha].
  rewrite (IH Ha), andb_true_r.
  apply negb_true_iff in Hc. apply negb_true_iff.
  destruct (starts_with fence_json ((c :: a) ++ rest)) eqn:Hj;
    [| reflexivity].
  apply starts_with_fence_json in Hj. congruence.
Qed.

Lemma space_not_backtick (c : char) : is_space c = true -> c <> backtick.
Proof. intros H ->. discriminate H. Qed.

Lemma quiet_spaces (ws rest : str) :
  forallb is_space ws = true -> quiet fence ws rest = true.
Proof.
  induction ws as [| c ws IH]; [reflexivity |].
  simpl forallb. intros H. apply andb_true_iff in H. destruct H as [Hc Hws].
  cbn [quiet]. rewrite (IH Hws), andb_true_r. apply negb_true_iff.
  destruct (starts_with fence ((c :: ws) ++ rest)) eqn:Hf; [| reflexivity].
  apply starts_with_fence_backtick in Hf.
  now apply space_not_backtick in Hc.
Qed.

(** A marker that begins inside [a] lies inside [a], or [a] ends with a
    backtick. *)
Lemma starts_with_fence_app (c : char) (a rest : str) :
  starts_with fence ((c :: a) ++ rest) = true ->
  starts_with fence (c :: a) = true \/ last (c :: a) c = backtick.
Proof.
  destruct a as [| b [| d a]].
  - intros H. right. now apply starts_with_fence_backtick in H.
  - rewrite fence_chars. cbn [starts_with app last]. intros H. right.
    apply andb_true_iff in H. destruct H as [_ H].
    apply andb_true_iff in H. destruct H as [H _].
    apply N.eqb_eq in H. now subst.
  - intros H. left. rewrite fence_chars in *. exact H.
Qed.

Lemma last_cons (c d : char) (a : str) : last (c :: d :: a) c = last (d :: a) d.
Proof.
  simpl. destruct a as [| x a]; [reflexivity |].
  revert x. induction a as [| y a IH]; intros x; [reflexivity |].
  simpl in *. apply IH.
Qed.

Lemma quiet_payload (p rest : str) :
  occurs fence p = false ->
  (forall c, last p c <> backtick \/ p = []) ->
  quiet fence p rest = true.
Proof.
  induction p as [| c p IH]; [reflexivity |].
  intros Ho Hl. cbn [occurs] in Ho. apply orb_false_iff in Ho.
  destruct Ho as [Hs Ho].
  cbn [quiet]. apply andb_true_iff. split.
  - apply negb_true_iff.
    destruct (starts_with fence ((c :: p) ++ rest)) eqn:Hf; [| reflexivity].
    apply starts_with_fence_app in Hf. destruct Hf as [Hf | Hf].
    + congruence.
    + destruct (Hl c) as [H | H]; [contradiction | discriminate H].
  - apply IH; [exact Ho |].
    intros d. destruct p as [| b p]; [now right |]. left.
    destruct (Hl c) as [H | H]; [| discriminate H].
    rewrite last_cons in H.
    intros Hd. apply H. rewrite <- Hd.
    clear. revert b. induction p as [| x p IHp]; intros b; [reflexivity |].
    simpl in *. destruct p; [reflexivity | apply IHp].
Qed.

Lemma lstrip_spaces (ws s : str) :
  forallb is_space ws = true -> lstrip (ws ++ s) = lstrip s.
Proof.
  induction ws as [| c ws IH]; [reflexivity |].
  simpl forallb. intros H. apply andb_true_iff in H. destruct H as [Hc Hws].
  change ((c :: ws) ++ s) with (c :: ws ++ s). cbn [lstrip].
  rewrite Hc. now apply IH.
Qed.

Lemma lstrip_kept (c : char) (s : str) :
  is_space c = false -> lstrip (c :: s) = c :: s.
Proof. intros H. cbn [lstrip]. now rewrite H. Qed.

Lemma forallb_rev (f : char -> bool) (l : str) :
  forallb f l = true -> forallb f (rev l) = true.
Proof.
  rewrite !forallb_forall. intros H x Hx. apply H. now apply in_rev.
Qed.

Lemma rstrip_spaces (s ws : str) :
  forallb is_space ws = true -> rstrip (s ++ ws) = rstrip s.
Proof.
  intros H. unfold rstrip. rewrite rev_app_distr.
  rewrite lstrip_spaces; [reflexivity | now apply forallb_rev].
Qed.

Lemma rstrip_kept (c : char) (s : str) :
  is_space (last (c :: s) c) = false -> rstrip (c :: s) = c :: s.
Proof.
  intros H. unfold rstrip.
  assert (Hne : c :: s <> []) by discriminate.
  assert (Hrev : rev (c :: s)
                 = last (c :: s) c :: rev (removelast (c :: s))).
  { rewrite (app_removelast_last c Hne) at 1.
    rewrite rev_app_distr. reflexivity. }
  rewrite Hrev, lstrip_kept by exact H.
  cbn [rev]. rewrite rev_involutive.
  symmetry. now apply app_removelast_last.
Qed.

Lemma strip_padded (ws1 ws2 : str) (c : char) (s : str) :
  forallb is_space ws1 = true -> forallb is_space ws2 = true ->
  is_space c = false -> is_space (last (c :: s) c) = false ->
  strip (ws1 ++ (c :: s) ++ ws2) = c :: s.
Proof.
  intros H1 H2 Hc Hl. unfold strip.
  rewrite lstrip_spaces by exact H1.
  change ((c :: s) ++ ws2) with (c :: s ++ ws2).
  rewrite lstrip_kept by exact Hc.
  change (c :: s ++ ws2) with ((c :: s) ++ ws2).
  rewrite rstrip_spaces by exact H2.
  now apply rstrip_kept.
Qed.

(** Behind a marker without tag: the text that follows begins with a
    character that is neither a backtick nor [j]. *)
Lemma quiet_bare_marker (y : char) (s : str) :
  y <> backtick -> y <> 106%N ->
  quiet fence_json fence (y :: s) = true.
Proof.
  intros Hb Hj. rewrite fence_chars, fence_json_chars.
  cbn [quiet starts_with app]. rewrite !N.eqb_refl.
  assert (H1 : (backtick =? y)%N = false)
    by (apply N.eqb_neq; congruence).
  assert (H2 : (106 =? y)%N = false) by (apply N.eqb_neq; congruence).
  rewrite H1, H2. reflexivity.
Qed.

Lemma edge_spec (c : char) :
  edge c = true -> is_space c = false /\ c <> backtick.
Proof.
  unfold edge. intros H. apply andb_true_iff in H. destruct H as [H1 H2].
  apply negb_true_iff in H1. apply negb_true_iff in H2.
  apply N.eqb_neq in H2. auto.
Qed.

Lemma quiet_padded (ws1 ws2 payload rest : str) :
  forallb is_space ws1 = true -> forallb is_space ws2 = true ->
  occurs fence payload = false ->
  (forall c, last payload c <> backtick \/ payload = []) ->
  quiet fence (ws1 ++ payload ++ ws2) rest = true.
Proof.
  intros H1 H2 Ho Hl. rewrite !quiet_app.
  rewrite (@quiet_spaces ws1 _ H1), (@quiet_spaces ws2 _ H2).
  now rewrite (@quiet_payload payload _ Ho Hl).
Qed.

Lemma last_default (l : str) (c d : char) :
  l <> [] -> last l c = last l d.
Proof.
  induction l as [| x l IH]; intros H; [contradiction |].
  destruct l as [| y l]; [reflexivity |].
  change (last (x :: y :: l) c) with (last (y :: l) c).
  change (last (x :: y :: l) d) with (last (y :: l) d).
  apply IH. discriminate.
Qed.

Lemma remove_fence_json_head (s : str) :
  remove fence_json (fence_json ++ s) = remove fence_json s.
Proof.
  exact (@remove_head backtick [backtick; backtick; 106; 115; 111; 110]%N s).
Qed.

Lemma remove_fence_head (s : str) : remove fence (fence ++ s) = remove fence s.
Proof. exact (@remove_head backtick [backtick; backtick] s). Qed.

Lemma remove_fence_json_at_end : remove fence_json fence = fence.
Proof. reflexivity. Qed.

Lemma remove_fence_at_end : remove fence fence = [].
Proof. reflexivity. Qed.

(** C2, as the code has it.  For every reply that wraps a payload in a
    code fence (the opening marker with or without its tag, blank
    characters around the payload, the closing marker), when the payload
    holds no fence marker of its own and begins and ends as a trimmed JSON
    text does, the cleaning yields exactly the payload; so the parser is
    given the payload itself, and reads the cleaned text as it reads the
    payload. *)
Theorem cleaning_yields_the_payload tagged ws1 ws2 payload :
  forallb is_space ws1 = true ->
  forallb is_space ws2 = true ->
  plain_payload tagged payload = true ->
  clean_reply (fenced tagged ws1 payload ws2) = payload
  /\ forall E,
       json_loads E (clean_reply (fenced tagged ws1 payload ws2))
       = json_loads E payload.
Proof.
  intros H1 H2 Hp.
  assert (Hclean : clean_reply (fenced tagged ws1 payload ws2) = payload);
    [| split; [exact Hclean | intros E; now rewrite Hclean]].
  destruct payload as [| c s]; [discriminate Hp |].
  unfold plain_payload in Hp.
  apply andb_true_iff in Hp. destruct Hp as [Hp Hj].
  apply andb_true_iff in Hp. destruct Hp as [Hp Ho].
  apply andb_true_iff in Hp. destruct Hp as [Hc Hl].
  apply negb_true_iff in Ho.
  apply edge_spec in Hc. destruct Hc as [Hcs Hcb].
  apply edge_spec in Hl. destruct Hl as [Hls Hlb].
  assert (Hlast : forall d, last (c :: s) d <> backtick \/ c :: s = []).
  { intros d. left.
    now rewrite (@last_default (c :: s) d c) by discriminate. }
  assert (Hq : forall rest,
             quiet fence (ws1 ++ (c :: s) ++ ws2) rest = true).
  { intros rest. now apply quiet_padded. }
  assert (Hbody : fenced tagged ws1 (c :: s) ws2
                  = (if tagged then fence_json else fence)
                      ++ (ws1 ++ (c :: s) ++ ws2) ++ fence).
  { unfold fenced. now rewrite <- !app_assoc. }
  assert (Hmid : remove fence (remove fence_json
                                 (fenced tagged ws1 (c :: s) ws2))
                 = ws1 ++ (c :: s) ++ ws2).
  { rewrite Hbody. destruct tagged.
    - rewrite remove_fence_json_head.
      rewrite remove_quiet by (apply quiet_fence_json, Hq).
      rewrite remove_fence_json_at_end.
      rewrite remove_quiet by apply Hq.
      rewrite remove_fence_at_end. now rewrite app_nil_r.
    - rewrite app_assoc.
      rewrite remove_quiet.
      + rewrite remove_fence_json_at_end, <- app_assoc.
        rewrite remove_fence_head.
        rewrite remove_quiet by apply Hq.
        rewrite remove_fence_at_end. now rewrite app_nil_r.
      + rewrite quiet_app. apply andb_true_iff. split.
        * assert (Hy : exists y rest',
                     (ws1 ++ (c :: s) ++ ws2) ++ fence = y :: rest'
                     /\ y <> backtick /\ y <> 106%N).
          { destruct ws1 as [| w ws1'].
            - exists c, ((s ++ ws2) ++ fence). split; [reflexivity |].
              split; [exact Hcb |].
              simpl in Hj. apply negb_true_iff in Hj.
              now apply N.eqb_neq in Hj.
            - exists w, ((ws1' ++ (c :: s) ++ ws2) ++ fence).
              split; [reflexivity |].
              simpl forallb in H1. apply andb_true_iff in H1.
              destruct H1 as [Hw _].
              split; intros ->; discriminate Hw. }
          destruct Hy as (y & rest' & -> & Hyb & Hyj).
          now apply quiet_bare_marker.
        * apply quiet_fence_json, Hq. }
  unfold clean_reply. rewrite Hmid.
  now apply strip_padded.
Qed.

Lemma cleaning_yields_the_payload_witness :
  forallb is_space nl = true
  /\ plain_payload true Sample.nothing_found_payload = true
  /\ clean_reply Sample.nothing_found_reply = Sample.nothing_found_payload.
Proof.
  split; [reflexivity |]. split; [reflexivity |].
  exact (proj1 (@cleaning_yields_the_payload true nl nl
                  Sample.nothing_found_payload eq_refl eq_refl eq_refl)).
Defined.

(** C2 as stated fails: the payload is an object whose title holds a
    fence marker; the cleaning removes the marker inside the title with
    the two around the payload, and what is parsed is not the payload. *)
Lemma cleaning_alters_a_marker_in_the_payload :
  clean_reply (fenced true nl Sample.marker_in_title_payload nl)
  = Sample.marker_in_title_cleaned
  /\ clean_reply (fenced true nl Sample.marker_in_title_payload nl)
     <> Sample.marker_in_title_payload.
Proof.
  split; [reflexivity |].
  intros H. vm_compute in H. discriminate H.
Qed.

Lemma insertion_failures_are_independent_witness :
  Forall (fun event => well_formed event = true) Sample.three
  /\ outcomes Sample.flaky 0 Sample.three
     = [Ok tt; Raise Sample.calendar_down; Ok tt]
  /\ exists t,
       (success_count <- schedule_events Sample.flaky Sample.service
                           Sample.three 0 ;;
        report_success success_count) []
       = (t, Ok tt)
       /\ count is_insert t = 3
       /\ filter is_error t
          = [StError (msg_create_failed Sample.calendar_down)]
       /\ count is_toast t = 2
       /\ filter is_success t = [StSuccess (msg_success 2)].
Proof.
  assert (Hw : Forall (fun event => well_formed event = true) Sample.three)
    by (repeat constructor).
  split; [exact Hw |]. split; [reflexivity |].
  exact (proj2 (proj2 (@insertion_failures_are_independent Sample.flaky
                         Sample.service Sample.three []) Hw)
           Sample.calendar_down eq_refl).
Defined.

(** ** Runs from the reply to the calendar *)

(** Three events in a fenced reply, the second insertion refused. *)
Example run_with_a_refused_insertion :
  run (analyze_and_schedule Sample.three_found (lit "lunch"))
  = (preamble Sample.three_found (lit "lunch")
       ++ [ Build (lit "calendar") (lit "v3");
            CalendarInsert (lit "primary")
              (make_body (PStr (utf8 "標題"))
                 (PStr (lit "2026-01-20T10:00:00"))
                 (PStr (lit "2026-01-20T11:00:00")));
            StToast (msg_created (PStr (utf8 "標題")));
            CalendarInsert (lit "primary")
              (make_body (PStr (utf8 "標題"))
                 (PStr (lit "2026-01-20T10:00:00"))
                 (PStr (lit "2026-01-20T10:00:00")));
            StError (msg_create_failed Sample.calendar_down);
            CalendarInsert (lit "primary")
              (make_body (PStr (utf8 "標題"))
                 (PStr (lit "2026-01-20T10:00:00"))
                 (PStr (lit "2026-01-20T11:00:00")));
            StToast (msg_created (PStr (utf8 "標題")));
            StSuccess (msg_success 2);
            StBalloons ],
     Ok tt).
Proof. vm_compute. reflexivity. Qed.

(** Two shapes the test for events does not catch: the exception leaves
    [analyze_and_schedule], outside of both handlers. *)
Example run_with_a_number :
  run (analyze_and_schedule Sample.number_reply (lit "lunch"))
  = (preamble Sample.number_reply (lit "lunch"),
     Raise (TypeError OpContains (PInt 5))).
Proof. vm_compute. reflexivity. Qed.

Example run_with_numbered_events :
  run (analyze_and_schedule Sample.numbered_events (lit "lunch"))
  = (preamble Sample.numbered_events (lit "lunch")
       ++ [Build (lit "calendar") (lit "v3")],
     Raise (TypeError OpIter (PInt 5))).
Proof. vm_compute. reflexivity. Qed.

(** * Further properties of the script *)

Lemma filter_none (p : effect -> bool) (t : list effect) :
  Forall (fun e => p e = false) t -> filter p t = [].
Proof.
  induction 1 as [| e t He _ IH]; [reflexivity |].
  simpl. now rewrite He.
Qed.

Lemma count_none (p : effect -> bool) (t : list effect) :
  Forall (fun e => p e = false) t -> count p t = 0.
Proof. intros H. unfold count. now rewrite (filter_none _ H). Qed.

(** ** Text extraction *)

Lemma extract_pages_readable pages text :
  existsb page_fails pages = false ->
  extract_pages pages text = Ok (text ++ flat_map page_text pages).
Proof.
  revert text. induction pages as [| p rest IH]; intros text H.
  - simpl. now rewrite app_nil_r.
  - simpl in H. apply orb_false_iff in H. destruct H as [Hp Hrest].
    destruct p as [[[| c s] |] | e]; try discriminate Hp; simpl;
      rewrite (IH _ Hrest); try reflexivity.
    rewrite <- app_assoc. reflexivity.
Qed.

Lemma extract_pages_unreadable pages text :
  existsb page_fails pages = true ->
  exists e, extract_pages pages text = Raise e.
Proof.
  revert text. induction pages as [| p rest IH]; intros text H;
    [discriminate H |].
  destruct p as [[[| c s] |] | e]; simpl in *; eauto.
Qed.

Lemma extract_text_of_readable pages :
  existsb page_fails pages = false ->
  extract_text_from_pdf (Ok pages) = Some (flat_map page_text pages).
Proof.
  intros H. unfold extract_text_from_pdf.
  now rewrite (extract_pages_readable pages [] H).
Qed.

(** X1. When the document opens and every page can be parsed, the
    extracted text is the text of the pages in order, each page with text
    followed by one newline; a page that gives [None] or an empty string
    adds nothing, not even a newline. *)
Theorem extraction_joins_the_pages pages :
  existsb page_fails pages = false ->
  extract_text_from_pdf (Ok pages) = Some (flat_map page_text pages).
Proof.
  exact (@extract_text_of_readable pages).
Qed.

Lemma extraction_joins_the_pages_witness :
  existsb page_fails Sample2.memo = false
  /\ extract_text_from_pdf (Ok Sample2.memo)
     = Some (lit "Mon 9:00" ++ nl ++ lit "Fri 14:00" ++ nl).
Proof.
  split; [reflexivity |].
  exact (@extraction_joins_the_pages Sample2.memo eq_refl).
Defined.

(** X2. The extraction is all or nothing: it returns [None] exactly when
    the document cannot be opened or some page cannot be parsed, and then
    the text of the pages read before the failure is lost. *)
Theorem extraction_fails_as_a_whole file :
  extract_text_from_pdf file = None <-> unreadable file = true.
Proof.
  destruct file as [pages | e]; simpl; [| tauto].
  destruct (existsb page_fails pages) eqn:H.
  - destruct (extract_pages_unreadable pages [] H) as [e He].
    rewrite He. tauto.
  - rewrite (extract_pages_readable pages [] H). split; discriminate.
Qed.

Lemma extraction_fails_as_a_whole_witness :
  has_text Sample2.damaged = true
  /\ extract_text_from_pdf Sample2.damaged = None.
Proof.
  split; [reflexivity |].
  exact (proj2 (extraction_fails_as_a_whole Sample2.damaged) eq_refl).
Defined.

Lemma page_text_nonempty pages :
  existsb page_has_text pages = true -> flat_map page_text pages <> [].
Proof.
  induction pages as [| p rest IH]; [discriminate |].
  simpl. intros H.
  destruct p as [[[| c s] |] | e]; simpl in *; auto; discriminate.
Qed.

(** X3. The handler of the upload runs the analyzer exactly for a
    document that can be read and has text, on the extracted text: one
    call of the model is made, and its prompt embeds the first 5000
    characters of that text.  In every other case it shows its error and
    the model is not called. *)
Theorem upload_reaches_the_model_with_the_text E file :
  (unreadable file = false /\ has_text file = true ->
   exists pages,
     file = Ok pages
     /\ run (submit_pdf E file)
        = run (analyze_and_schedule E (flat_map page_text pages))
     /\ count is_model_call (fst (run (submit_pdf E file))) = 1
     /\ In (GenerateContent model_name
              (build_prompt (now E)
                 (slice_to 5000 (flat_map page_text pages))))
          (fst (run (submit_pdf E file))))
  /\ (unreadable file = true \/ has_text file = false ->
      run (submit_pdf E file) = ([StError msg_cannot_read_pdf], Ok tt)).
Proof.
  split.
  - intros [Hu Ht]. destruct file as [pages | e]; [| discriminate Hu].
    simpl in Hu, Ht. exists pages. split; [reflexivity |].
    assert (Hrun : run (submit_pdf E (Ok pages))
                   = run (analyze_and_schedule E (flat_map page_text pages))).
    { unfold run, submit_pdf.
      rewrite (extract_text_of_readable pages Hu).
      pose proof (page_text_nonempty pages Ht) as Hne.
      destruct (flat_map page_text pages); [contradiction | reflexivity]. }
    split; [exact Hrun |]. rewrite Hrun.
    destruct (analyze_and_schedule_log
                (fun e => is_model_call e = false) E
                (flat_map page_text pages)) as [t [Hlog Ht']]; [auto |].
    rewrite Hlog. split.
    + unfold count. simpl. now rewrite (filter_none _ Ht').
    + right. left. unfold build_prompt, slice_to.
      now rewrite firstn_firstn, Nat.min_id.
  - intros H. unfold run, submit_pdf.
    destruct file as [pages | e]; [| reflexivity].
    simpl in H. unfold extract_text_from_pdf.
    destruct (existsb page_fails pages) eqn:Hf.
    + destruct (extract_pages_unreadable pages [] Hf) as [e He].
      now rewrite He.
    + destruct H as [H | H]; [discriminate H |].
      destruct (extract_pages_without_text pages [] H) as [Hok _].
      now rewrite (Hok Hf).
Qed.

Lemma upload_reaches_the_model_with_the_text_witness :
  run (submit_pdf Sample.quiet (Ok Sample2.memo))
  = run (analyze_and_schedule Sample.quiet
           (lit "Mon 9:00" ++ nl ++ lit "Fri 14:00" ++ nl)).
Proof.
  destruct (proj1 (upload_reaches_the_model_with_the_text Sample.quiet
                     (Ok Sample2.memo)) (conj eq_refl eq_refl))
    as (pages & Hfile & Hrun & _).
  injection Hfile as <-. exact Hrun.
Defined.

(** ** The calendar client factory *)

(** X4. Whatever the token and the library do, the factory ends in one
    of two ways unless the library raises: it builds the service and
    shows nothing, or it shows exactly one error and builds nothing.  It
    asks for a refresh at most once, and it sends no insert request, calls
    no model, and shows no warning, toast or success message. *)
Theorem factory_builds_or_reports E log :
  exists t r,
    get_calendar_service E log = (log ++ t, r)
    /\ count is_refresh t <= 1
    /\ count is_insert t = 0
    /\ count is_model_call t = 0
    /\ count is_message t = count is_error t
    /\ ((exists svc, r = Ok (Some svc))
        <-> count is_build t = 1 /\ count is_error t = 0)
    /\ (r = Ok None <-> count is_build t = 0 /\ count is_error t = 1)
    /\ ((exists e, r = Raise e) -> t = []).
Proof.
  destruct (get_calendar_service_cases E log) as (t & r & Hg & Hc).
  exists t, r. split; [exact Hg |].
  destruct Hc as [[-> ->] | [[-> ->] | [[e [-> ->]] | [[st [-> ->]] | [st [-> ->]]]]]];
    unfold count; simpl;
    (split; [lia |]); (split; [reflexivity |]); (split; [reflexivity |]);
    (split; [reflexivity |]);
    (split; [split; [intros [svc H]; try discriminate H; auto
                    | intros [H1 H2]; try discriminate; eauto] |]);
    (split; [split; [intros H; try discriminate H; auto
                    | intros [H1 H2]; try discriminate; auto] |]);
    try reflexivity; intros [e' H]; try discriminate H; reflexivity.
Qed.

(** X5. After a refresh that succeeds the service is built on the
    refreshed credentials without a second look at them: a refreshed
    state that is still not valid gives a handle all the same, and no
    error is shown. *)
Theorem refreshed_credentials_are_not_checked_again E log st st' :
  Py.truthy (TOKEN_DICT E) = true ->
  authorized_user_info E (TOKEN_DICT E) = Ok st ->
  valid st = false ->
  expired st = true ->
  has_refresh_token (with_scopes st) = true ->
  refresh_request E st = Ok st' ->
  valid st' = false ->
  get_calendar_service E log
  = (log ++ [Refresh; Build (lit "calendar") (lit "v3")],
     Ok (Some (calendar_service (with_scopes st')))).
Proof.
  intros Ht Ha Hv He Hr Hq _.
  apply (service_refreshed E log Ht Ha Hv); [| exact Hq].
  now rewrite He, Hr.
Qed.

Lemma refreshed_credentials_are_not_checked_again_witness :
  valid Sample.stale_token = false
  /\ get_calendar_service
       (Sample.env (Ok (lit "null")) (lit "null") PNone Sample.stale_token
          (Ok Sample.stale_token) []) []
     = ([Refresh; Build (lit "calendar") (lit "v3")],
        Ok (Some (calendar_service (with_scopes Sample.stale_token)))).
Proof.
  split; [reflexivity |].
  exact (@refreshed_credentials_are_not_checked_again
           (Sample.env (Ok (lit "null")) (lit "null") PNone
              Sample.stale_token (Ok Sample.stale_token) [])
           [] Sample.stale_token Sample.stale_token
           eq_refl eq_refl eq_refl eq_refl eq_refl eq_refl eq_refl).
Defined.

(** ** The prompt *)

Lemma length_lit_parts :
  List.length prompt_head = 14
  /\ List.length prompt_rules = 304
  /\ List.length prompt_tail = 9.
Proof. repeat split. Qed.

(** X6. A text of at most 5000 characters is embedded whole, and the
    prompt is never longer than 5327 characters plus the timestamp: its
    length is 327, plus the length of the timestamp, plus the length of
    the text or 5000, whichever is less. *)
Theorem prompt_length (now_ content : str) :
  List.length (build_prompt now_ content)
  = 327 + List.length now_ + Nat.min 5000 (List.length content)
  /\ (List.length content <= 5000 ->
      build_prompt now_ content
      = prompt_head ++ now_ ++ prompt_rules ++ content ++ prompt_tail).
Proof.
  destruct length_lit_parts as (Hh & Hr & Ht). split.
  - unfold build_prompt, slice_to.
    rewrite !length_app, length_firstn, Hh, Hr, Ht. lia.
  - intros H. unfold build_prompt, slice_to.
    now rewrite firstn_all2 by exact H.
Qed.

Lemma prompt_length_witness :
  build_prompt (lit "2026-01-19 09:00:00") (lit "lunch")
  = prompt_head ++ lit "2026-01-19 09:00:00" ++ prompt_rules
      ++ lit "lunch" ++ prompt_tail.
Proof.
  apply (proj2 (prompt_length (lit "2026-01-19 09:00:00") (lit "lunch"))).
  vm_compute. lia.
Defined.

(** ** Cleaning a reply, in general *)

Lemma quiet_without_marker (s : str) :
  occurs fence s = false -> quiet fence s [] = true.
Proof.
  induction s as [| c s IH]; [reflexivity |].
  intros H. cbn [occurs] in H. apply orb_false_iff in H.
  destruct H as [Hs Ho]. cbn [quiet]. rewrite app_nil_r, Hs.
  now rewrite (IH Ho).
Qed.

Lemma remove_without_marker (s : str) :
  occurs fence s = false ->
  remove fence s = s /\ remove fence_json s = s.
Proof.
  intros H. pose proof (quiet_without_marker s H) as Hq.
  split.
  - rewrite <- (app_nil_r s) at 1. rewrite (remove_quiet _ _ _ Hq).
    now rewrite app_nil_r.
  - rewrite <- (app_nil_r s) at 1.
    rewrite (remove_quiet _ _ _ (quiet_fence_json _ _ Hq)).
    now rewrite app_nil_r.
Qed.

(** X7. A reply that holds no fence marker is only trimmed: the two
    replacements leave it as it is. *)
Theorem reply_without_marker_is_only_trimmed (text : str) :
  occurs fence text = false -> clean_reply text = strip text.
Proof.
  intros H. unfold clean_reply.
  destruct (remove_without_marker text H) as [Hf Hj].
  now rewrite Hj, Hf.
Qed.

Lemma reply_without_marker_is_only_trimmed_witness :
  occurs fence (lit "  [1] ") = false
  /\ clean_reply (lit "  [1] ") = strip (lit "  [1] ").
Proof.
  split; [reflexivity |].
  exact (@reply_without_marker_is_only_trimmed (lit "  [1] ") eq_refl).
Defined.

Definition two_ticks : str := [backtick; backtick].

Lemma starts_with_fence_cons (c : char) (s : str) :
  starts_with fence (c :: s) = (backtick =? c)%N && starts_with two_ticks s.
Proof. reflexivity. Qed.

Lemma starts_with_two_cons (c : char) (s : str) :
  starts_with two_ticks (c :: s)
  = (backtick =? c)%N && starts_with [backtick] s.
Proof. reflexivity. Qed.

Lemma starts_with_one_cons (c : char) (s : str) :
  starts_with [backtick] (c :: s) = (backtick =? c)%N && true.
Proof. reflexivity. Qed.

Lemma remove_step_kept (c : char) (s : str) :
  starts_with fence (c :: s) = false ->
  remove_from fence 0 (c :: s) = c :: remove_from fence 0 s.
Proof. intros H. cbn [remove_from]. now rewrite H. Qed.

(** What is left of a text that does not begin with two backticks does
    not begin with two backticks either. *)
Lemma remove_keeps_the_head (s : str) :
  starts_with two_ticks s = false ->
  starts_with two_ticks (remove fence s) = false.
Proof.
  unfold remove.
  destruct s as [| a [| b s]]; intros H; [reflexivity | |].
  - rewrite remove_step_kept.
    + rewrite starts_with_two_cons. cbn [remove_from starts_with].
      apply andb_false_r.
    + rewrite starts_with_fence_cons. cbn [starts_with two_ticks].
      apply andb_false_r.
  - rewrite starts_with_two_cons, starts_with_one_cons in H.
    assert (Hf : starts_with fence (a :: b :: s) = false).
    { rewrite starts_with_fence_cons, starts_with_two_cons.
      destruct (backtick =? a)%N; [| reflexivity].
      destruct (backtick =? b)%N; [discriminate H | reflexivity]. }
    rewrite (remove_step_kept _ _ Hf), starts_with_two_cons.
    destruct (backtick =? a)%N; [| reflexivity].
    destruct (backtick =? b)%N eqn:Hb; [discriminate H |].
    rewrite remove_step_kept
      by (rewrite starts_with_fence_cons, Hb; reflexivity).
    rewrite starts_with_one_cons, Hb. reflexivity.
Qed.

Lemma starts_with_fence_split (s : str) :
  starts_with fence s = true -> exists rest, s = fence ++ rest.
Proof.
  rewrite fence_chars.
  destruct s as [| a [| b [| c s]]]; cbn [starts_with]; try discriminate;
    try (rewrite ?andb_false_r; discriminate).
  intros H.
  apply andb_true_iff in H. destruct H as [Ha H].
  apply andb_true_iff in H. destruct H as [Hb H].
  apply andb_true_iff in H. destruct H as [Hc _].
  apply N.eqb_eq in Ha, Hb, Hc. subst. now exists s.
Qed.

Lemma remove_leaves_no_marker_upto (n : nat) :
  forall s, List.length s <= n -> occurs fence (remove fence s) = false.
Proof.
  induction n as [| n IH]; intros s Hn.
  - destruct s; [reflexivity | simpl in Hn; lia].
  - destruct s as [| c s]; [reflexivity |].
    destruct (starts_with fence (c :: s)) eqn:Hs.
    + destruct (starts_with_fence_split _ Hs) as [rest Hrest].
      rewrite Hrest, remove_fence_head. apply IH.
      apply (f_equal (@List.length char)) in Hrest.
      rewrite length_app in Hrest. simpl in Hrest, Hn. lia.
    + assert (Hstep : remove fence (c :: s) = c :: remove fence s).
      { unfold remove. cbn [remove_from]. now rewrite Hs. }
      rewrite Hstep. cbn [occurs].
      rewrite (IH s) by (simpl in Hn; lia). rewrite orb_false_r.
      rewrite starts_with_fence_cons in *.
      destruct (backtick =? c)%N; [| reflexivity].
      simpl in *. now apply remove_keeps_the_head.
Qed.

Lemma remove_leaves_no_marker (s : str) :
  occurs fence (remove fence s) = false.
Proof. apply (@remove_leaves_no_marker_upto (List.length s) s). lia. Qed.

Lemma starts_with_app_l (old a b : str) :
  starts_with old a = true -> starts_with old (a ++ b) = true.
Proof.
  revert a. induction old as [| x old IH]; intros a H; [reflexivity |].
  destruct a as [| y a]; [discriminate H |].
  cbn [starts_with app] in *. apply andb_true_iff in H.
  destruct H as [-> H]. now rewrite (IH _ H).
Qed.

Lemma occurs_app_l (old a b : str) :
  occurs old a = true -> occurs old (a ++ b) = true.
Proof.
  induction a as [| c a IH]; intros H.
  - cbn [occurs] in H. rewrite orb_false_r in H.
    destruct old; [destruct b; reflexivity | discriminate H].
  - cbn [occurs] in H. apply orb_true_iff in H.
    change ((c :: a) ++ b) with (c :: a ++ b). cbn [occurs].
    apply orb_true_iff. destruct H as [H | H].
    + left. now apply (starts_with_app_l _ (c :: a) b).
    + right. now apply IH.
Qed.

Lemma occurs_app_r (old a b : str) :
  occurs old b = true -> occurs old (a ++ b) = true.
Proof.
  induction a as [| c a IH]; intros H; [exact H |].
  change ((c :: a) ++ b) with (c :: a ++ b). cbn [occurs].
  rewrite (IH H). apply orb_true_r.
Qed.

(** [lstrip] drops a blank prefix, [rstrip] a blank suffix. *)
Lemma lstrip_suffix (s : str) :
  exists ws, s = ws ++ lstrip s /\ forallb is_space ws = true.
Proof.
  induction s as [| c s IH]; [now exists [] |].
  cbn [lstrip]. destruct (is_space c) eqn:Hc.
  - destruct IH as [ws [Hs Hws]]. exists (c :: ws). simpl.
    rewrite Hc, Hws. now rewrite <- Hs.
  - now exists [].
Qed.

Lemma rstrip_prefix (s : str) :
  exists ws, s = rstrip s ++ ws /\ forallb is_space ws = true.
Proof.
  unfold rstrip. destruct (lstrip_suffix (rev s)) as [ws [Hs Hws]].
  exists (rev ws). split; [| now apply forallb_rev].
  rewrite <- rev_app_distr, <- Hs. now rewrite rev_involutive.
Qed.

Lemma occurs_strip (old s : str) :
  occurs old s = false -> occurs old (strip s) = false.
Proof.
  intros H. unfold strip.
  destruct (occurs old (rstrip (lstrip s))) eqn:Ho; [| reflexivity].
  destruct (rstrip_prefix (lstrip s)) as [w2 [H2 _]].
  destruct (lstrip_suffix s) as [w1 [H1 _]].
  apply (occurs_app_l _ _ w2) in Ho. rewrite <- H2 in Ho.
  apply (occurs_app_r _ w1) in Ho. rewrite <- H1 in Ho. congruence.
Qed.

Lemma occurs_fence_json (s : str) :
  occurs fence_json s = true -> occurs fence s = true.
Proof.
  induction s as [| c s IH]; cbn [occurs]; intros Ho.
  - discriminate Ho.
  - apply orb_true_iff in Ho. apply orb_true_iff.
    destruct Ho as [Ho | Ho];
      [left; now apply starts_with_fence_json | right; now apply IH].
Qed.

Lemma cleaned_reply_marker_free (text : str) :
  occurs fence (clean_reply text) = false
  /\ occurs fence_json (clean_reply text) = false.
Proof.
  assert (H : occurs fence (clean_reply text) = false).
  { unfold clean_reply. apply occurs_strip, remove_leaves_no_marker. }
  split; [exact H |].
  destruct (occurs fence_json (clean_reply text)) eqn:Hj; [| reflexivity].
  apply occurs_fence_json in Hj. congruence.
Qed.

(** X8. Whatever the reply, the text given to the parser holds no fence
    marker: every run of three backticks is gone after the cleaning, also
    one that the removal of a tagged marker puts together. *)
Theorem cleaned_reply_has_no_marker (text : str) :
  occurs fence (clean_reply text) = false
  /\ occurs fence_json (clean_reply text) = false.
Proof. exact (cleaned_reply_marker_free text). Qed.

Lemma lstrip_head (s : str) :
  match lstrip s with
  | [] => True
  | c :: _ => is_space c = false
  end.
Proof.
  induction s as [| c s IH]; [exact I |].
  cbn [lstrip]. destruct (is_space c) eqn:Hc; [exact IH | exact Hc].
Qed.

Lemma lstrip_idempotent (s : str) : lstrip (lstrip s) = lstrip s.
Proof.
  pose proof (lstrip_head s) as H.
  destruct (lstrip s) as [| c r]; [reflexivity |].
  now apply lstrip_kept.
Qed.

Lemma lstrip_snoc (a : str) (c : char) :
  is_space c = false -> exists b, lstrip (a ++ [c]) = b ++ [c].
Proof.
  intros Hc. induction a as [| x a IH].
  - exists []. simpl. now rewrite Hc.
  - change ((x :: a) ++ [c]) with (x :: a ++ [c]). cbn [lstrip].
    destruct (is_space x); [exact IH |].
    now exists (x :: a).
Qed.

(** [rstrip] keeps a first character that is not blank. *)
Lemma rstrip_head (c : char) (s : str) :
  is_space c = false -> exists r, rstrip (c :: s) = c :: r.
Proof.
  intros Hc. unfold rstrip. cbn [rev].
  destruct (lstrip_snoc (rev s) c Hc) as [b Hb].
  rewrite Hb, rev_app_distr. now exists (rev b).
Qed.

Lemma rstrip_idempotent (s : str) : rstrip (rstrip s) = rstrip s.
Proof.
  unfold rstrip. now rewrite rev_involutive, lstrip_idempotent.
Qed.

Lemma rstrip_last (s : str) :
  match rstrip s with
  | [] => True
  | c :: r => is_space (last (c :: r) c) = false
  end.
Proof.
  unfold rstrip. pose proof (lstrip_head (rev s)) as H.
  destruct (lstrip (rev s)) as [| x l]; [exact I |].
  cbn [rev]. destruct (rev l ++ [x]) as [| c r] eqn:Hr; [exact I |].
  rewrite <- Hr. now rewrite last_last.
Qed.

Lemma strip_trimmed (s : str) : trimmed (strip s) = true.
Proof.
  unfold strip, trimmed.
  pose proof (lstrip_head s) as Hh. pose proof (rstrip_last (lstrip s)) as Hl.
  destruct (lstrip s) as [| y l]; [reflexivity |].
  destruct (rstrip_head y l Hh) as [r Hr]. rewrite Hr in *.
  now rewrite Hh, Hl.
Qed.

Lemma strip_idempotent (s : str) : strip (strip s) = strip s.
Proof.
  unfold strip.
  pose proof (lstrip_head s) as Hh.
  destruct (lstrip s) as [| y l]; [reflexivity |].
  destruct (rstrip_head y l Hh) as [r Hr].
  rewrite Hr, (lstrip_kept y r Hh), <- Hr. apply rstrip_idempotent.
Qed.

(** X9. The text given to the parser is trimmed: whatever the reply, the
    cleaned text neither begins nor ends with a blank character, for the
    blank characters of [str.strip], the ideographic space among them. *)
Theorem cleaned_reply_is_trimmed (text : str) :
  trimmed (clean_reply text) = true.
Proof. unfold clean_reply. apply strip_trimmed. Qed.

(** X10. Cleaning is idempotent: cleaning a cleaned reply changes
    nothing. *)
Theorem cleaning_is_idempotent (text : str) :
  clean_reply (clean_reply text) = clean_reply text.
Proof.
  destruct (cleaned_reply_marker_free text) as [Hf _].
  unfold clean_reply at 1.
  destruct (remove_without_marker _ Hf) as [H1 H2].
  rewrite H2, H1. unfold clean_reply. apply strip_idempotent.
Qed.

(** ** Events that cannot be sent *)

Lemma unusable_error event :
  unusable event = true ->
  exists e,
    event_body event = Raise e
    /\ ((exists items,
           event = PDict items
           /\ Py.lookup (lit "start_time") items = None
           /\ e = KeyError (lit "start_time"))
        \/ ((forall items, event <> PDict items)
            /\ e = AttributeError event (lit "get"))).
Proof.
  unfold unusable. intros H.
  destruct event as [| b | z | f | s | l | items];
    try (eexists; split; [reflexivity |]; right; split;
         [intros items H'; discriminate H' | reflexivity]).
  destruct (Py.lookup (lit "start_time") items) as [start |] eqn:Hs.
  - rewrite (event_body_dict _ Hs) in H. discriminate H.
  - exists (KeyError (lit "start_time")). split.
    + unfold event_body, Py.get, Py.getitem, rbind. now rewrite Hs.
    + left. now exists items.
Qed.

Lemma schedule_events_unusable_step E svc event rest n log e :
  event_body event = Raise e ->
  schedule_events E svc (event :: rest) n log
  = schedule_events E svc rest n (log ++ [StError (msg_create_failed e)]).
Proof.
  intros H. simpl.
  unfold bind at 1, try_except, bind at 1, insert_event, bind at 1, lift.
  rewrite H. reflexivity.
Qed.

(** X11. An event that is not a dictionary, or a dictionary without
    [start_time], never reaches the calendar: the loop shows one error for
    it, naming the missing method [get] or the missing key [start_time],
    leaves the count as it is, and goes on with the next event.  A
    missing title is no obstacle at this point: the key that is reported
    is [start_time]. *)
Theorem unusable_event_is_reported_not_sent E svc event rest n log :
  unusable event = true ->
  exists e,
    (e = KeyError (lit "start_time")
     \/ e = AttributeError event (lit "get"))
    /\ schedule_events E svc (event :: rest) n log
       = schedule_events E svc rest n
           (log ++ [StError (msg_create_failed e)]).
Proof.
  intros H. destruct (unusable_error event H) as (e & Hb & Hc).
  exists e. split.
  - destruct Hc as [(items & _ & _ & ->) | [_ ->]]; auto.
  - now apply schedule_events_unusable_step.
Qed.

Lemma unusable_event_is_reported_not_sent_witness :
  unusable (PDict [ (lit "end_time", PStr (lit "2026-01-20T11:00:00")) ])
  = true
  /\ schedule_events Sample.quiet Sample.service
       [PDict [ (lit "end_time", PStr (lit "2026-01-20T11:00:00")) ]] 0 []
     = ([StError (msg_create_failed (KeyError (lit "start_time")))], Ok 0).
Proof.
  split; [reflexivity |].
  destruct (@unusable_event_is_reported_not_sent Sample.quiet Sample.service
              (PDict [ (lit "end_time", PStr (lit "2026-01-20T11:00:00")) ])
              [] 0 [] eq_refl) as (e & [-> | ->] & Hrun);
    [exact Hrun |].
  vm_compute in Hrun. discriminate Hrun.
Defined.

(** X12. A key that is present with the value [null] is not defaulted:
    a [null] title is submitted as [None], not as the placeholder, and a
    [null] end time is submitted as [None], not as the start time. *)
Theorem null_values_are_submitted items start :
  Py.lookup (lit "start_time") items = Some start ->
  exists body,
    event_body (PDict items) = Ok body
    /\ (Py.lookup (lit "summary") items = Some PNone ->
        path [lit "summary"] body = Some PNone)
    /\ (Py.lookup (lit "end_time") items = Some PNone ->
        path [lit "end"; lit "dateTime"] body = Some PNone
        /\ path [lit "start"; lit "dateTime"] body = Some start).
Proof.
  intros Hs. eexists. split; [exact (event_body_dict _ Hs) |].
  unfold summary_of, end_of. split.
  - intros H. rewrite H. reflexivity.
  - intros H. rewrite H. split; reflexivity.
Qed.

Lemma null_values_are_submitted_witness :
  submitted_end
    (PDict [ (lit "start_time", PStr (lit "2026-01-20T10:00:00"));
             (lit "end_time", PNone) ])
  = Some PNone.
Proof.
  destruct (@null_values_are_submitted
              [ (lit "start_time", PStr (lit "2026-01-20T10:00:00"));
                (lit "end_time", PNone) ]
              (PStr (lit "2026-01-20T10:00:00")) eq_refl)
    as (body & Hb & _ & He).
  unfold submitted_end. rewrite Hb. exact (proj1 (He eq_refl)).
Defined.

(** ** The loop, in general *)

(** One pass of the loop, by what it adds to the log. *)
Lemma schedule_events_step_shape E svc event rest n log :
  exists t n',
    schedule_events E svc (event :: rest) n log
    = schedule_events E svc rest n' (log ++ t)
    /\ ((exists body title,
           t = [CalendarInsert (lit "primary") body;
                StToast (msg_created title)]
           /\ n' = S n)
        \/ (exists body e,
              t = [CalendarInsert (lit "primary") body;
                   StError (msg_create_failed e)]
              /\ n' = n)
        \/ (exists e, t = [StError (msg_create_failed e)] /\ n' = n)).
Proof.
  destruct (event_body event) as [body | e] eqn:Hb.
  - simpl.
    unfold bind at 1, try_except, bind at 1, insert_event, bind at 1, lift.
    rewrite Hb. unfold bind at 1, calendar_insert.
    destruct (execute_insert E (count is_insert log) (lit "primary") body)
      as [[] | e].
    + unfold bind at 1.
      destruct (Py.getitem event (lit "summary")) as [title | e].
      * exists [CalendarInsert (lit "primary") body;
                StToast (msg_created title)], (S n).
        unfold bind, tell, ret. rewrite <- app_assoc.
        split; [reflexivity | left; eauto].
      * exists [CalendarInsert (lit "primary") body;
                StError (msg_create_failed e)], n.
        unfold bind, tell, ret. rewrite <- app_assoc.
        split; [reflexivity | right; left; eauto].
    + exists [CalendarInsert (lit "primary") body;
              StError (msg_create_failed e)], n.
      unfold bind, tell, ret. rewrite <- app_assoc.
      split; [reflexivity | right; left; eauto].
  - exists [StError (msg_create_failed e)], n.
    split; [now apply schedule_events_unusable_step | right; right; eauto].
Qed.

Lemma schedule_events_counts E svc events :
  forall n log,
  exists t n',
    schedule_events E svc events n log = (log ++ t, Ok n')
    /\ count is_toast t + count is_error t = List.length events
    /\ n' = n + count is_toast t
    /\ count is_toast t <= count is_insert t
    /\ count is_insert t <= List.length events
    /\ Forall (fun e => loop_effect e = true) t.
Proof.
  induction events as [| event rest IH]; intros n log.
  - exists [], n. simpl. rewrite app_nil_r.
    repeat split; auto; unfold count; simpl; lia.
  - destruct (schedule_events_step_shape E svc event rest n log)
      as (t1 & n1 & Hstep & Hshape).
    destruct (IH n1 (log ++ t1))
      as (t2 & n2 & Hrun & Hsum & Hn & Hti & Hin & Hall).
    exists (t1 ++ t2), n2. rewrite Hstep, Hrun, app_assoc.
    split; [reflexivity |]. rewrite !count_app.
    destruct Hshape as [(body & title & -> & ->)
                       | [(body & e & -> & ->) | (e & -> & ->)]];
      unfold count at 1 3 5 7 9; simpl;
      (split; [lia |]); (split; [lia |]); (split; [lia |]);
      (split; [lia |]); repeat (constructor; [reflexivity |]); exact Hall.
Qed.

(** X13. Whatever the events are and whatever the calendar answers, the
    loop ends without an exception and gives every event exactly one
    notification, a toast or an error: the two together are as many as the
    events.  The count it returns is the number of toasts, every toast
    follows a request that was sent, and no more requests are sent than
    there are events. *)
Theorem every_event_is_notified_once E svc events log :
  exists t n,
    schedule_events E svc events 0 log = (log ++ t, Ok n)
    /\ count is_toast t + count is_error t = List.length events
    /\ n = count is_toast t
    /\ count is_toast t <= count is_insert t
    /\ count is_insert t <= List.length events
    /\ Forall (fun e => loop_effect e = true) t.
Proof.
  destruct (schedule_events_counts E svc events 0 log)
    as (t & n & H1 & H2 & H3 & H4 & H5 & H6).
  exists t, n. repeat split; auto.
Qed.

Lemma schedule_events_app E svc first second :
  forall n log,
    schedule_events E svc (first ++ second) n log
    = (n1 <- schedule_events E svc first n ;;
       schedule_events E svc second n1) log.
Proof.
  induction first as [| event rest IH]; intros n log; [reflexivity |].
  change ((event :: rest) ++ second) with (event :: rest ++ second).
  cbn [schedule_events].
  set (pass := try_except _ _).
  unfold bind.
  destruct (pass log) as [log' [m | e]]; [| reflexivity].
  rewrite IH. reflexivity.
Qed.

(** X14. The loop over a list in two parts is the loop over the first
    part followed by the loop over the second, with the log and the count
    the first part leaves: the events of the second part are handled as
    in a loop of their own that starts from there. *)
Theorem loop_over_two_parts E svc first second n log :
  exists t n1,
    schedule_events E svc first n log = (log ++ t, Ok n1)
    /\ schedule_events E svc (first ++ second) n log
       = schedule_events E svc second n1 (log ++ t).
Proof.
  destruct (schedule_events_total E svc first n log) as (t & n1 & Hrun & _).
  exists t, n1. split; [exact Hrun |].
  rewrite schedule_events_app. unfold bind. now rewrite Hrun.
Qed.

(** ** The run after the reply is parsed *)

Lemma report_success_log n log :
  report_success n log = (log ++ report n, Ok tt).
Proof.
  unfold report_success, report. destruct (0 <? n).
  - unfold bind, tell. now rewrite <- app_assoc.
  - unfold ret. now rewrite app_nil_r.
Qed.

Lemma write_events_raises E data log e :
  Py.truthy data = true ->
  Py.contains (lit "events") data = Raise e ->
  write_events E data log = (log, Raise e).
Proof.
  intros Ht Hc. unfold write_events, no_events, bind, lift, ret.
  rewrite Ht, Hc. reflexivity.
Qed.

Lemma write_events_passed E data log :
  passes_events_test data ->
  write_events E data log = after_events_test E data log.
Proof.
  intros [Ht Hc]. unfold write_events, no_events, bind, lift, ret.
  rewrite Ht, Hc. reflexivity.
Qed.

Lemma events_test_cases data :
  (Py.truthy data = false \/ Py.contains (lit "events") data = Ok false)
  \/ (Py.truthy data = true
      /\ exists e, Py.contains (lit "events") data = Raise e)
  \/ passes_events_test data.
Proof.
  unfold passes_events_test.
  destruct (Py.truthy data); [| auto].
  destruct (Py.contains (lit "events") data) as [[|] | e]; eauto.
Qed.

Lemma loop_effect_only (t : list effect) :
  Forall (fun e => loop_effect e = true) t ->
  count is_success t = 0 /\ count is_balloons t = 0
  /\ count is_warning t = 0 /\ count is_model_call t = 0.
Proof.
  intros H. repeat split; apply count_none;
    (eapply Forall_impl; [| exact H]); intros [] He;
    try reflexivity; discriminate He.
Qed.

Lemma factory_log_counts E log :
  exists ts rs,
    get_calendar_service E log = (log ++ ts, rs)
    /\ count is_toast ts = 0 /\ count is_success ts = 0
    /\ count is_balloons ts = 0 /\ count is_insert ts = 0
    /\ count is_warning ts = 0 /\ count is_model_call ts = 0.
Proof.
  destruct (get_calendar_service_cases E log) as (t & r & Hg & Hc).
  exists t, r. split; [exact Hg |].
  destruct Hc as [[-> _] | [[-> _] | [[e [-> _]] | [[st [-> _]] | [st [-> _]]]]]];
    repeat split.
Qed.

Lemma loop_and_report E svc data log :
  (events <- lift (Py.getitem data (lit "events")) ;;
   items <- lift (Py.iter events) ;;
   success_count <- schedule_events E svc items 0 ;;
   report_success success_count) log
  = match rbind (Py.getitem data (lit "events")) Py.iter with
    | Ok items =>
        (n <- schedule_events E svc items 0 ;; report_success n) log
    | Raise e => (log, Raise e)
    end.
Proof.
  unfold bind at 1, lift.
  destruct (Py.getitem data (lit "events")) as [events | e];
    [| reflexivity].
  unfold bind at 1. simpl rbind.
  destruct (Py.iter events) as [items | e]; reflexivity.
Qed.

(** The ways [write_events] can go once the test is passed. *)
Lemma after_events_test_shape E data log :
  exists ts rs,
    get_calendar_service E log = (log ++ ts, rs)
    /\ (count is_toast ts = 0 /\ count is_success ts = 0
        /\ count is_balloons ts = 0 /\ count is_insert ts = 0
        /\ count is_warning ts = 0 /\ count is_model_call ts = 0)
    /\ ((rs = Ok None
         /\ after_events_test E data log = (log ++ ts, Ok tt))
        \/ (exists e,
              rs = Raise e
              /\ after_events_test E data log = (log ++ ts, Raise e))
        \/ (exists svc,
              rs = Ok (Some svc)
              /\ ((exists e,
                     rbind (Py.getitem data (lit "events")) Py.iter = Raise e
                     /\ after_events_test E data log = (log ++ ts, Raise e))
                  \/ (exists items tl n,
                        rbind (Py.getitem data (lit "events")) Py.iter
                        = Ok items
                        /\ schedule_events E svc items 0 (log ++ ts)
                           = ((log ++ ts) ++ tl, Ok n)
                        /\ after_events_test E data log
                           = (log ++ ts ++ tl ++ report n, Ok tt)
                        /\ n = count is_toast tl
                        /\ count is_toast tl + count is_error tl
                           = List.length items
                        /\ count is_insert tl <= List.length items
                        /\ Forall (fun e => loop_effect e = true) tl)))).
Proof.
  destruct (factory_log_counts E log) as (ts & rs & Hg & Hcounts).
  exists ts, rs. split; [exact Hg |]. split; [exact Hcounts |].
  assert (Hafter : after_events_test E data log
                   = match rs with
                     | Ok (Some svc) =>
                         match rbind (Py.getitem data (lit "events")) Py.iter
                         with
                         | Ok items =>
                             (n <- schedule_events E svc items 0 ;;
                              report_success n) (log ++ ts)
                         | Raise e => (log ++ ts, Raise e)
                         end
                     | Ok None => (log ++ ts, Ok tt)
                     | Raise e => (log ++ ts, Raise e)
                     end).
  { unfold after_events_test, bind at 1. rewrite Hg.
    destruct rs as [[svc |] | e]; try reflexivity.
    apply loop_and_report. }
  rewrite Hafter. clear Hafter.
  destruct rs as [[svc |] | e].
  - right. right. exists svc. split; [reflexivity |].
    destruct (rbind (Py.getitem data (lit "events")) Py.iter)
      as [items | e].
    + right.
      destruct (schedule_events_counts E svc items 0 (log ++ ts))
        as (tl & n & Hrun & Hsum & Hn & _ & Hins & Hall).
      exists items, tl, n. split; [reflexivity |].
      split; [exact Hrun |].
      unfold bind. rewrite Hrun, report_success_log.
      rewrite <- !app_assoc. auto.
    + left. exists e. auto.
  - left. auto.
  - right. left. exists e. auto.
Qed.

(** X15. At the end of a run the success message and the balloons appear
    together, once at most, and exactly when at least one event was
    notified as created; the number the message shows is the number of
    those notifications. *)
Theorem success_is_reported_for_created_events E content :
  count is_success (fst (run (analyze_and_schedule E content))) <= 1
  /\ count is_balloons (fst (run (analyze_and_schedule E content)))
     = count is_success (fst (run (analyze_and_schedule E content)))
  /\ (count is_success (fst (run (analyze_and_schedule E content))) = 1
      <-> 0 < count is_toast (fst (run (analyze_and_schedule E content))))
  /\ (forall m,
         In (StSuccess m) (fst (run (analyze_and_schedule E content))) ->
         m = msg_success
               (count is_toast (fst (run (analyze_and_schedule E content))))).
Proof.
  assert (Hfail : forall e,
             run (analyze_and_schedule E content)
             = (preamble E content ++ [StError (msg_analysis_failed e)],
                Ok tt) ->
             count is_success (fst (run (analyze_and_schedule E content)))
             <= 1
             /\ count is_balloons (fst (run (analyze_and_schedule E content)))
                = count is_success
                    (fst (run (analyze_and_schedule E content)))
             /\ (count is_success
                   (fst (run (analyze_and_schedule E content))) = 1
                 <-> 0 < count is_toast
                           (fst (run (analyze_and_schedule E content))))
             /\ (forall m,
                    In (StSuccess m)
                      (fst (run (analyze_and_schedule E content))) ->
                    m = msg_success
                          (count is_toast
                             (fst (run (analyze_and_schedule E content)))))).
  { intros e ->. unfold count. simpl. repeat split; try lia.
    intros m [H | [H | [H | []]]]; discriminate H. }
  destruct (generate_content E model_name (build_prompt (now E) content))
    as [text | e] eqn:Hgen; [| exact (Hfail e (run_model_fails _ _ Hgen))].
  destruct (json_loads E (clean_reply text)) as [data | e] eqn:Hload;
    [| exact (Hfail e (run_parse_fails _ _ Hgen Hload))].
  clear Hfail. rewrite (run_parsed _ _ Hgen Hload).
  destruct (events_test_cases data) as [Hnone | [[Ht [e He]] | Hpass]].
  - rewrite (write_events_none E _ (preamble E content) Hnone).
    unfold count. simpl. repeat split; try lia.
    intros m [H | [H | [H | []]]]; discriminate H.
  - rewrite (write_events_raises E _ (preamble E content) Ht He).
    unfold count. simpl. repeat split; try lia.
    intros m [H | [H | []]]; discriminate H.
  - rewrite (write_events_passed E (preamble E content) Hpass).
    destruct (after_events_test_shape E data (preamble E content))
      as (ts & rs & _ & (Hts1 & Hts2 & Hts3 & _) & Hshape).
    assert (Hin : forall m, ~ In (StSuccess m) ts).
    { intros m Hm. unfold count in Hts2.
      apply length_zero_iff_nil in Hts2.
      assert (Hf : In (StSuccess m) (filter is_success ts))
        by (apply filter_In; auto).
      rewrite Hts2 in Hf. exact Hf. }
    assert (Hplain : forall r,
               after_events_test E data (preamble E content)
               = (preamble E content ++ ts, r) ->
               count is_success
                 (fst (after_events_test E data (preamble E content))) <= 1
               /\ count is_balloons
                    (fst (after_events_test E data (preamble E content)))
                  = count is_success
                      (fst (after_events_test E data (preamble E content)))
               /\ (count is_success
                     (fst (after_events_test E data (preamble E content)))
                   = 1
                   <-> 0 < count is_toast
                             (fst (after_events_test E data
                                     (preamble E content))))
               /\ (forall m,
                      In (StSuccess m)
                        (fst (after_events_test E data (preamble E content)))
                      -> m = msg_success
                               (count is_toast
                                  (fst (after_events_test E data
                                          (preamble E content)))))).
    { intros r ->. cbn [fst]. rewrite !count_app, Hts1, Hts2, Hts3.
      unfold count. simpl. repeat split; try lia.
      intros m [H | [H | H]]; try discriminate H.
      now apply Hin in H. }
    destruct Hshape as [[_ H] | [[e [_ H]] | [svc [_ [[e [_ H]] | H]]]]];
      try exact (Hplain _ H).
    clear Hplain.
    destruct H as (items & tl & n & _ & _ & -> & Hn & _ & _ & Hall).
    destruct (loop_effect_only Hall) as (Hl1 & Hl2 & _ & _).
    assert (Hinl : forall m, ~ In (StSuccess m) tl).
    { intros m Hm. unfold count in Hl1.
      apply length_zero_iff_nil in Hl1.
      assert (Hf : In (StSuccess m) (filter is_success tl))
        by (apply filter_In; auto).
      rewrite Hl1 in Hf. exact Hf. }
    cbn [fst]. rewrite !count_app, Hts1, Hts2, Hts3, Hl1, Hl2, <- Hn.
    unfold report. destruct n as [| n].
    + unfold count. simpl. repeat split; try lia.
      intros m [H | [H | H]]; try discriminate H.
      apply in_app_or in H. destruct H as [H | H]; [now apply Hin in H |].
      apply in_app_or in H. destruct H as [H | []]. now apply Hinl in H.
    + unfold count. simpl. repeat split; try lia.
      intros m [H | [H | H]]; try discriminate H.
      apply in_app_or in H. destruct H as [H | H]; [now apply Hin in H |].
      apply in_app_or in H. destruct H as [H | H]; [now apply Hinl in H |].
      destruct H as [H | [H | []]]; [| discriminate H].
      injection H as <-. f_equal. lia.
Qed.

(** X16. Nothing reaches the calendar side before the reply is parsed
    and found to hold the events key: a run in which a token is
    refreshed, a service is built or a request is sent is a run whose
    reply parsed to a true value that contains the key.  A run in which
    a request is sent is moreover one in which the factory returned a
    handle and the events could be iterated. *)
Theorem calendar_is_reached_only_with_events E content :
  (0 < count is_calendar_call (fst (run (analyze_and_schedule E content))) ->
   exists text data,
     generate_content E model_name (build_prompt (now E) content) = Ok text
     /\ json_loads E (clean_reply text) = Ok data
     /\ passes_events_test data)
  /\ (0 < count is_insert (fst (run (analyze_and_schedule E content))) ->
      exists text data ts svc items,
        generate_content E model_name (build_prompt (now E) content)
        = Ok text
        /\ json_loads E (clean_reply text) = Ok data
        /\ get_calendar_service E (preamble E content)
           = (preamble E content ++ ts, Ok (Some svc))
        /\ rbind (Py.getitem data (lit "events")) Py.iter = Ok items).
Proof.
  destruct (generate_content E model_name (build_prompt (now E) content))
    as [text | e] eqn:Hgen.
  2:{ rewrite (run_model_fails _ _ Hgen). unfold count. simpl.
      split; intros H; lia. }
  destruct (json_loads E (clean_reply text)) as [data | e] eqn:Hload.
  2:{ rewrite (run_parse_fails _ _ Hgen Hload). unfold count. simpl.
      split; intros H; lia. }
  rewrite (run_parsed _ _ Hgen Hload).
  destruct (events_test_cases data) as [Hnone | [[Ht [e He]] | Hpass]].
  - rewrite (write_events_none E _ (preamble E content) Hnone).
    unfold count. simpl. split; intros H; lia.
  - rewrite (write_events_raises E _ (preamble E content) Ht He).
    unfold count. simpl. split; intros H; lia.
  - split; [intros _; now exists text, data |].
    rewrite (write_events_passed E (preamble E content) Hpass).
    destruct (after_events_test_shape E data (preamble E content))
      as (ts & rs & Hg & (_ & _ & _ & Hins & _) & Hshape).
    assert (Hnone : count is_insert (preamble E content ++ ts) = 0).
    { rewrite count_app, Hins. reflexivity. }
    destruct Hshape as [[_ H] | [[e [_ H]] | [svc [Hrs [[e [_ H]] | H]]]]];
      try (rewrite H; cbn [fst]; rewrite Hnone; intros Hc; lia).
    destruct H as (items & tl & n & Hitems & _). subst rs.
    intros _. now exists text, data, ts, svc, items.
Qed.

(** X17. When the reply holds the events key and the factory returns no
    handle, the run ends there: the log holds the credential error of the
    factory and nothing after it, so no request is sent and nothing is
    said about the events. *)
Theorem run_ends_without_a_handle E content text data log1 :
  generate_content E model_name (build_prompt (now E) content) = Ok text ->
  json_loads E (clean_reply text) = Ok data ->
  passes_events_test data ->
  get_calendar_service E (preamble E content) = (log1, Ok None) ->
  run (analyze_and_schedule E content) = (log1, Ok tt)
  /\ (log1 = preamble E content ++ [StError msg_no_credentials]
      \/ log1 = preamble E content ++ [Refresh; StError msg_refresh_failed]).
Proof.
  intros Hgen Hload Hpass Hg.
  rewrite (run_parsed _ _ Hgen Hload).
  rewrite (write_events_passed E (preamble E content) Hpass).
  split.
  - unfold after_events_test, bind. now rewrite Hg.
  - destruct (get_calendar_service_cases E (preamble E content))
      as (t & r & Hg' & Hc).
    rewrite Hg in Hg'. injection Hg' as -> <-.
    destruct Hc as [[-> _] | [[-> _] | [[e [_ H]] | [[st [_ H]] | [st [_ H]]]]]];
      auto; discriminate H.
Qed.

Lemma run_with_handle E content text data log1 svc :
  generate_content E model_name (build_prompt (now E) content) = Ok text ->
  json_loads E (clean_reply text) = Ok data ->
  passes_events_test data ->
  get_calendar_service E (preamble E content) = (log1, Ok (Some svc)) ->
  run (analyze_and_schedule E content)
  = match rbind (Py.getitem data (lit "events")) Py.iter with
    | Ok items =>
        (n <- schedule_events E svc items 0 ;; report_success n) log1
    | Raise e => (log1, Raise e)
    end.
Proof.
  intros Hgen Hload Hpass Hg.
  rewrite (run_parsed _ _ Hgen Hload).
  rewrite (write_events_passed E (preamble E content) Hpass).
  unfold after_events_test, bind at 1. rewrite Hg.
  apply loop_and_report.
Qed.

(** X18. A reply that parses to a number or to [true] (a true value that
    is no container) is caught by neither handler: the test for the key
    raises a [TypeError] that leaves [analyze_and_schedule], and the log
    holds the spinner and the call of the model only, no message and no
    calendar call. *)
Theorem scalar_reply_raises E content text data :
  generate_content E model_name (build_prompt (now E) content) = Ok text ->
  json_loads E (clean_reply text) = Ok data ->
  scalar data = true ->
  Py.truthy data = true ->
  run (analyze_and_schedule E content)
  = (preamble E content, Raise (TypeError OpContains data)).
Proof.
  intros Hgen Hload Hs Ht.
  rewrite (run_parsed _ _ Hgen Hload).
  apply write_events_raises; [exact Ht |].
  destruct data; try discriminate Hs; reflexivity.
Qed.

Lemma scalar_reply_raises_witness :
  run (analyze_and_schedule Sample.number_reply (lit "lunch"))
  = (preamble Sample.number_reply (lit "lunch"),
     Raise (TypeError OpContains (PInt 5))).
Proof.
  exact (@scalar_reply_raises Sample.number_reply (lit "lunch") (lit "5")
           (PInt 5) eq_refl eq_refl eq_refl eq_refl).
Defined.

(** X19. Two more shapes pass the test for the key and fail after the
    service is built, with a [TypeError] that leaves
    [analyze_and_schedule]: a list or a string that contains the key
    cannot be indexed by it, and an object whose events are [null], a
    number or a boolean cannot be iterated.  No request is sent. *)
Theorem events_that_cannot_be_read_raise E content text data ts svc :
  generate_content E model_name (build_prompt (now E) content) = Ok text ->
  json_loads E (clean_reply text) = Ok data ->
  passes_events_test data ->
  get_calendar_service E (preamble E content)
  = (preamble E content ++ ts, Ok (Some svc)) ->
  ((forall items, data <> PDict items) ->
   run (analyze_and_schedule E content)
   = (preamble E content ++ ts, Raise (TypeError OpGetItem data)))
  /\ (forall items events,
         data = PDict items ->
         Py.lookup (lit "events") items = Some events ->
         scalar events = true ->
         run (analyze_and_schedule E content)
         = (preamble E content ++ ts, Raise (TypeError OpIter events))).
Proof.
  intros Hgen Hload Hpass Hg.
  rewrite (@run_with_handle E content text _ _ svc Hgen Hload Hpass Hg). split.
  - intros Hd. destruct data as [| b | z | f | s | l | items];
      try reflexivity.
    now destruct (Hd items).
  - intros items events -> He Hs. unfold Py.getitem. rewrite He.
    simpl rbind. destruct events; try discriminate Hs; reflexivity.
Qed.

Lemma events_that_cannot_be_read_raise_witness :
  run (analyze_and_schedule Sample.numbered_events (lit "lunch"))
  = (preamble Sample.numbered_events (lit "lunch")
       ++ [Build (lit "calendar") (lit "v3")],
     Raise (TypeError OpIter (PInt 5))).
Proof.
  refine (proj2 (@events_that_cannot_be_read_raise Sample.numbered_events
                   (lit "lunch") Sample.numbered_events_text
                   (PDict [ (lit "events", PInt 5) ])
                   [Build (lit "calendar") (lit "v3")] Sample.service
                   eq_refl eq_refl (conj eq_refl eq_refl) eq_refl)
            [ (lit "events", PInt 5) ] (PInt 5) eq_refl eq_refl eq_refl).
Defined.

Lemma schedule_events_characters E svc (s : str) :
  forall n log,
    schedule_events E svc (map (fun c => PStr [c]) s) n log
    = (log ++ map (fun c => StError (msg_create_failed
                                       (AttributeError (PStr [c]) (lit "get"))))
                s,
       Ok n).
Proof.
  induction s as [| c s IH]; intros n log.
  - simpl. now rewrite app_nil_r.
  - cbn [map].
    rewrite (@schedule_events_unusable_step E svc (PStr [c]) _ n log
               (AttributeError (PStr [c]) (lit "get")) eq_refl).
    rewrite IH, <- app_assoc. reflexivity.
Qed.

(** X20. When the events of the reply are a string instead of a list,
    the loop runs over its characters: each character is reported as an
    event that could not be created, no request is sent, and no success
    is reported. *)
Theorem string_of_events_is_read_by_character
    E content text items (s : str) ts svc :
  generate_content E model_name (build_prompt (now E) content) = Ok text ->
  json_loads E (clean_reply text) = Ok (PDict items) ->
  Py.lookup (lit "events") items = Some (PStr s) ->
  get_calendar_service E (preamble E content)
  = (preamble E content ++ ts, Ok (Some svc)) ->
  run (analyze_and_schedule E content)
  = (preamble E content ++ ts
       ++ map (fun c => StError (msg_create_failed
                                   (AttributeError (PStr [c]) (lit "get"))))
            s,
     Ok tt).
Proof.
  intros Hgen Hload He Hg.
  assert (Hpass : passes_events_test (PDict items)).
  { split.
    - destruct items; [discriminate He | reflexivity].
    - unfold Py.contains. now rewrite He. }
  rewrite (@run_with_handle E content text _ _ svc Hgen Hload Hpass Hg).
  unfold Py.getitem. rewrite He.
  simpl rbind. unfold bind.
  rewrite schedule_events_characters.
  rewrite report_success_log. change (report 0) with (@nil effect).
  now rewrite app_nil_r, <- app_assoc.
Qed.

Lemma run_ends_without_a_handle_witness :
  run (analyze_and_schedule Sample3.locked_out (lit "lunch"))
  = (preamble Sample3.locked_out (lit "lunch")
       ++ [Refresh; StError msg_refresh_failed], Ok tt).
Proof.
  exact (proj1 (@run_ends_without_a_handle Sample3.locked_out (lit "lunch")
                  Sample.nothing_found_reply
                  (PDict [ (lit "events", PList []) ])
                  (preamble Sample3.locked_out (lit "lunch")
                     ++ [Refresh; StError msg_refresh_failed])
                  eq_refl eq_refl (conj eq_refl eq_refl) eq_refl)).
Defined.

Lemma string_of_events_is_read_by_character_witness :
  run (analyze_and_schedule Sample3.string_events (lit "lunch"))
  = (preamble Sample3.string_events (lit "lunch")
       ++ [ Build (lit "calendar") (lit "v3");
            StError (msg_create_failed
                       (AttributeError (PStr (lit "a")) (lit "get")));
            StError (msg_create_failed
                       (AttributeError (PStr (lit "b")) (lit "get"))) ],
     Ok tt).
Proof.
  exact (@string_of_events_is_read_by_character Sample3.string_events
           (lit "lunch") Sample3.string_events_text
           [ (lit "events", PStr (lit "ab")) ] (lit "ab")
           [Build (lit "calendar") (lit "v3")] Sample.service
           eq_refl eq_refl eq_refl eq_refl).
Defined.

(** ** When every insertion succeeds *)

Lemma well_formed_body event :
  well_formed event = true -> exists body, event_body event = Ok body.
Proof.
  intros Hw. destruct event as [| b | z | f | s | l | items];
    try discriminate Hw.
  simpl in Hw.
  destruct (Py.lookup (lit "summary") items); [| discriminate Hw].
  destruct (Py.lookup (lit "start_time") items) as [start |] eqn:Hs;
    [| discriminate Hw].
  eexists. exact (event_body_dict _ Hs).
Qed.

Lemma outcomes_all_succeed E events :
  Forall (fun event => well_formed event = true) events ->
  (forall k body, execute_insert E k (lit "primary") body = Ok tt) ->
  forall k,
    successes (outcomes E k events) = List.length events
    /\ failures (outcomes E k events) = 0.
Proof.
  intros Hw Hall. induction Hw as [| event rest Hwf _ IH]; intros k.
  - split; reflexivity.
  - destruct (well_formed_body event Hwf) as (body & Hb).
    cbn [outcomes]. rewrite Hb, Hall.
    destruct (IH (S k)) as [Hs Hf].
    unfold successes, failures in *. simpl. now rewrite Hs, Hf.
Qed.

(** X21. When the reply holds a list of event candidates (records with a
    title and a start time), the factory returns a handle and the
    calendar accepts every request, every candidate is sent and notified
    as created, no error is shown, and the run ends with the success
    message for the number of candidates, and the balloons. *)
Theorem all_insertions_succeed E content text items events ts svc :
  generate_content E model_name (build_prompt (now E) content) = Ok text ->
  json_loads E (clean_reply text) = Ok (PDict items) ->
  Py.lookup (lit "events") items = Some (PList events) ->
  events <> [] ->
  Forall (fun event => well_formed event = true) events ->
  get_calendar_service E (preamble E content)
  = (preamble E content ++ ts, Ok (Some svc)) ->
  (forall k body, execute_insert E k (lit "primary") body = Ok tt) ->
  exists tl,
    run (analyze_and_schedule E content)
    = (preamble E content ++ ts ++ tl
         ++ [StSuccess (msg_success (List.length events)); StBalloons],
       Ok tt)
    /\ filter is_insert tl = requests events
    /\ count is_toast tl = List.length events
    /\ count is_error tl = 0.
Proof.
  intros Hgen Hload He Hne Hw Hg Hall.
  assert (Hpass : passes_events_test (PDict items)).
  { split.
    - destruct items; [discriminate He | reflexivity].
    - unfold Py.contains. now rewrite He. }
  rewrite (@run_with_handle E content text _ _ svc Hgen Hload Hpass Hg).
  unfold Py.getitem. rewrite He. simpl rbind.
  destruct (schedule_events_well_formed E svc Hw 0
              (preamble E content ++ ts))
    as (tl & Hrun & Hreq & Herr & _).
  destruct (schedule_events_counts E svc events 0 (preamble E content ++ ts))
    as (tl' & n' & Hrun' & Hsum & _).
  rewrite Hrun in Hrun'. injection Hrun' as Htl _.
  apply app_inv_head in Htl. subst tl'.
  destruct (outcomes_all_succeed E Hw Hall
              (count is_insert (preamble E content ++ ts))) as [Hs Hf].
  rewrite Hs in Hrun. rewrite Hf in Herr.
  exists tl. split; [| split; [exact Hreq | split; [lia | exact Herr]]].
  unfold bind. rewrite Hrun, report_success_log. unfold report.
  destruct events as [| ev rest]; [contradiction |].
  simpl Nat.ltb. cbv iota. simpl List.length.
  now rewrite <- !app_assoc.
Qed.

Lemma all_insertions_succeed_witness :
  exists tl,
    run (analyze_and_schedule Sample3.all_taken (lit "lunch"))
    = (preamble Sample3.all_taken (lit "lunch")
         ++ [Build (lit "calendar") (lit "v3")] ++ tl
         ++ [StSuccess (msg_success 3); StBalloons],
       Ok tt)
    /\ count is_error tl = 0.
Proof.
  assert (Hw : Forall (fun event => well_formed event = true) Sample.three)
    by (repeat constructor).
  destruct (@all_insertions_succeed Sample3.all_taken (lit "lunch")
              (fence_json ++ nl ++ Sample.three_found_payload ++ nl ++ fence)
              [ (lit "events", PList Sample.three) ] Sample.three
              [Build (lit "calendar") (lit "v3")] Sample.service
              eq_refl eq_refl eq_refl
              ltac:(discriminate) Hw eq_refl
              ltac:(intros k body; destruct k as [| [| [| k]]]; reflexivity))
    as (tl & Hrun & _ & _ & Herr).
  exists tl. split; [exact Hrun | exact Herr].
Defined.

(** ** The start of the script and the page *)

Lemma load_secrets_fails E store log :
  secrets_fail E store ->
  load_secrets E store log = (log ++ [StError msg_no_secrets], Ok None).
Proof.
  unfold secrets_fail, load_secrets, try_except, bind, lift, ret, tell.
  intros H.
  destruct (secret store (lit "GEMINI_API_KEY")) as [key | e];
    [| reflexivity].
  destruct H as [[e H] | H]; [discriminate H |].
  destruct (secret store (lit "GOOGLE_TOKEN_JSON")) as [tt_ | e];
    [| reflexivity].
  simpl in H.
  destruct (loads E tt_) as [token | e]; [| reflexivity].
  destruct H as [[e H] | H]; [discriminate H |].
  destruct (secret store (lit "GOOGLE_CLIENT_JSON")) as [ct | e];
    [| reflexivity].
  simpl in H.
  destruct (loads E ct) as [client | e]; [| reflexivity].
  destruct H as [e H]. discriminate H.
Qed.

(** X22. The script starts only with all three secrets: when the key of
    the model is present and the two blobs are present and parse, the
    three globals are set and nothing is shown; when any of the five
    steps fails (a secret is missing, a blob is not a string or does not
    parse), the one error about the secrets is shown and the script
    stops. *)
Theorem startup_needs_every_secret E store log :
  (forall key token client,
      secret store (lit "GEMINI_API_KEY") = Ok key ->
      rbind (secret store (lit "GOOGLE_TOKEN_JSON")) (loads E) = Ok token ->
      rbind (secret store (lit "GOOGLE_CLIENT_JSON")) (loads E) = Ok client ->
      load_secrets E store log
      = (log, Ok (Some {| API_KEY := key; token_dict := token;
                          CLIENT_CONFIG := client |})))
  /\ ((exists e, secret store (lit "GEMINI_API_KEY") = Raise e)
      \/ (exists e,
            rbind (secret store (lit "GOOGLE_TOKEN_JSON")) (loads E)
            = Raise e)
      \/ (exists e,
            rbind (secret store (lit "GOOGLE_CLIENT_JSON")) (loads E)
            = Raise e) ->
      load_secrets E store log = (log ++ [StError msg_no_secrets], Ok None)).
Proof.
  split.
  - unfold load_secrets, try_except, bind, lift, ret, tell.
    intros key token client Hk Ht Hc. rewrite Hk.
    destruct (secret store (lit "GOOGLE_TOKEN_JSON")) as [tt_ | e];
      [| discriminate Ht].
    simpl in Ht. rewrite Ht.
    destruct (secret store (lit "GOOGLE_CLIENT_JSON")) as [ct | e];
      [| discriminate Hc].
    simpl in Hc. rewrite Hc. reflexivity.
  - intros H. now apply load_secrets_fails.
Qed.

Lemma startup_needs_every_secret_witness :
  load_secrets Sample.quiet Sample4.short_store []
  = ([StError msg_no_secrets], Ok None).
Proof.
  apply (proj2 (startup_needs_every_secret Sample.quiet
                  Sample4.short_store [])).
  right. right. exists (KeyError (lit "GOOGLE_CLIENT_JSON")). reflexivity.
Defined.

Lemma load_secrets_cases E store log :
  (exists config, load_secrets E store log = (log, Ok (Some config)))
  \/ load_secrets E store log = (log ++ [StError msg_no_secrets], Ok None).
Proof.
  unfold load_secrets, try_except, bind, lift, ret, tell.
  destruct (secret store (lit "GEMINI_API_KEY")) as [key | e]; [| now right].
  destruct (secret store (lit "GOOGLE_TOKEN_JSON")) as [tt_ | e];
    [| now right].
  destruct (loads E tt_) as [token | e]; [| now right].
  destruct (secret store (lit "GOOGLE_CLIENT_JSON")) as [ct | e];
    [| now right].
  destruct (loads E ct) as [client | e]; [| now right].
  left. eexists. reflexivity.
Qed.

(** X23. Without the secrets the page does nothing, whatever is typed,
    uploaded or pressed: when a secret is missing or a blob does not
    parse, the run of the script shows the error about the secrets and
    ends, with no call of the model and no calendar call. *)
Theorem page_is_dead_without_secrets E store page :
  secrets_fail E store ->
  run (script E store page) = ([StError msg_no_secrets], Ok tt)
  /\ count is_model_call (fst (run (script E store page))) = 0
  /\ count is_calendar_call (fst (run (script E store page))) = 0.
Proof.
  intros H.
  assert (Hrun : run (script E store page)
                 = ([StError msg_no_secrets], Ok tt)).
  { unfold run, script, bind. now rewrite (load_secrets_fails [] H). }
  rewrite Hrun. auto.
Qed.

Lemma page_is_dead_without_secrets_witness :
  run (script Sample.quiet Sample4.short_store Sample4.busy_page)
  = ([StError msg_no_secrets], Ok tt).
Proof.
  apply (@page_is_dead_without_secrets Sample.quiet Sample4.short_store
           Sample4.busy_page).
  right. right. exists (KeyError (lit "GOOGLE_CLIENT_JSON")). reflexivity.
Defined.

(** The handler of the upload from any log. *)
Lemma upload_handler_cases E file log :
  (unreadable file = false /\ has_text file = true ->
   exists c s,
     extract_text_from_pdf file = Some (c :: s)
     /\ submit_pdf E file log = analyze_and_schedule E (c :: s) log)
  /\ (unreadable file = true \/ has_text file = false ->
      submit_pdf E file log = (log ++ [StError msg_cannot_read_pdf], Ok tt)).
Proof.
  split.
  - intros [Hu Ht]. destruct file as [pages | e]; [| discriminate Hu].
    simpl in Hu, Ht. unfold submit_pdf.
    rewrite (extract_text_of_readable pages Hu).
    pose proof (page_text_nonempty pages Ht) as Hne.
    destruct (flat_map page_text pages) as [| c s]; [contradiction |].
    now exists c, s.
  - intros H. unfold submit_pdf.
    destruct file as [pages | e]; [| reflexivity].
    simpl in H. unfold extract_text_from_pdf.
    destruct (existsb page_fails pages) eqn:Hf.
    + destruct (extract_pages_unreadable pages [] Hf) as [e He].
      now rewrite He.
    + destruct H as [H | H]; [discriminate H |].
      destruct (extract_pages_without_text pages [] H) as [Hok _].
      now rewrite (Hok Hf).
Qed.

(** X24. A run of the script calls the model only on a button: when the
    model is called, the secrets were loaded, and either the button of
    the text tab was pressed with a text that is not empty, or the button
    of the upload tab was pressed with a file that can be read and has
    text. *)
Theorem model_is_called_only_on_a_button E store page :
  0 < count is_model_call (fst (run (script E store page))) ->
  (exists config, load_secrets E store [] = ([], Ok (Some config)))
  /\ ((txt_btn page = true /\ user_input page <> [])
      \/ (pdf_btn page = true
          /\ exists file,
               uploaded_file page = Some file
               /\ unreadable file = false /\ has_text file = true)).
Proof.
  unfold run, script, bind at 1.
  destruct (load_secrets_cases E store []) as [[config Hl] | Hl]; rewrite Hl.
  2:{ unfold count. simpl. intros H. lia. }
  intros H. split; [now exists config |].
  set (E' := with_token E (token_dict config)) in *.
  assert (Htxt : (txt_btn page = true /\ user_input page <> [])
                 \/ exists l1,
                      (if txt_btn page
                       then submit_text E' (user_input page)
                       else ret tt) []
                      = (l1, Ok tt)
                      /\ count is_model_call l1 = 0).
  { destruct (txt_btn page).
    - destruct (user_input page) as [| c s].
      + right. now exists [StWarning msg_enter_content].
      + left. split; [reflexivity | discriminate].
    - right. now exists []. }
  destruct Htxt as [Htxt | (l1 & Hrun1 & Hc1)]; [now left |].
  right.
  assert (Hpdf : (pdf_btn page = true
                  /\ exists file,
                       uploaded_file page = Some file
                       /\ unreadable file = false /\ has_text file = true)
                 \/ exists t2,
                      match uploaded_file page with
                      | Some file =>
                          if pdf_btn page then submit_pdf E' file else ret tt
                      | None => ret tt
                      end l1
                      = (l1 ++ t2, Ok tt)
                      /\ count is_model_call t2 = 0).
  { destruct (uploaded_file page) as [file |].
    - destruct (pdf_btn page).
      + destruct (unreadable file) eqn:Hr.
        * right. exists [StError msg_cannot_read_pdf].
          split; [| reflexivity].
          apply (proj2 (upload_handler_cases E' file l1)). now left.
        * destruct (has_text file) eqn:Hh.
          -- left. split; [reflexivity |]. now exists file.
          -- right. exists [StError msg_cannot_read_pdf].
             split; [| reflexivity].
             apply (proj2 (upload_handler_cases E' file l1)). now right.
      + right. exists []. unfold ret. now rewrite app_nil_r.
    - right. exists []. unfold ret. now rewrite app_nil_r. }
  destruct Hpdf as [Hpdf | (t2 & Hrun2 & Hc2)]; [exact Hpdf |].
  exfalso. revert H. unfold bind. rewrite Hrun1, Hrun2. cbn [fst].
  rewrite count_app, Hc1, Hc2. intros H. lia.
Qed.

(** X25. The handler of the text tab turns away the empty text only: it
    shows its warning for it and calls nothing.  Any other text, one made
    of blank characters included, is analyzed: the model is called
    exactly once, with the prompt of that text. *)
Theorem only_the_empty_text_is_turned_away E :
  run (submit_text E []) = ([StWarning msg_enter_content], Ok tt)
  /\ (forall input,
         input <> [] ->
         run (submit_text E input) = run (analyze_and_schedule E input)
         /\ count is_model_call (fst (run (submit_text E input))) = 1
         /\ In (GenerateContent model_name (build_prompt (now E) input))
              (fst (run (submit_text E input)))).
Proof.
  split; [reflexivity |].
  intros input Hne. destruct input as [| c s]; [contradiction |].
  assert (Hrun : run (submit_text E (c :: s))
                 = run (analyze_and_schedule E (c :: s))) by reflexivity.
  split; [exact Hrun |]. rewrite Hrun.
  destruct (analyze_and_schedule_log
              (fun e => is_model_call e = false) E (c :: s))
    as [t [Hlog Ht]]; [auto |].
  rewrite Hlog. split.
  - unfold count. simpl. now rewrite (filter_none _ Ht).
  - right. now left.
Qed.

Lemma only_the_empty_text_is_turned_away_witness :
  count is_model_call (fst (run (submit_text Sample.quiet (lit "  ")))) = 1.
Proof.
  refine (proj1 (proj2 (proj2 (only_the_empty_text_is_turned_away
                                 Sample.quiet) (lit "  ") _))).
  discriminate.
Defined.

Lemma model_is_called_only_on_a_button_witness :
  0 < count is_model_call
        (fst (run (script Sample.quiet Sample4.store Sample4.busy_page)))
  /\ exists config,
       load_secrets Sample.quiet Sample4.store [] = ([], Ok (Some config)).
Proof.
  assert (H : 0 < count is_model_call
                    (fst (run (script Sample.quiet Sample4.store
                                 Sample4.busy_page))))
    by (vm_compute; lia).
  split; [exact H |].
  exact (proj1 (@model_is_called_only_on_a_button Sample.quiet Sample4.store
                  Sample4.busy_page H)).
Defined.
